(** * ChatPromptWidget: the streaming conversation pipeline of airunner

    A shallow embedding of [src/airunner/gui/widgets/llm/chat_prompt_widget.py]:
    the token buffer, the periodic flush, the view update in
    [add_message_to_conversation], the generation session
    ([do_generate], [enable_generate], [interrupt_button_clicked]) and the
    conversation lifecycle handlers.

    The widget is a record of the attributes the methods read and write;
    a method is a function from widget to widget.  Calls that leave the
    widget (the LLM api, the logger, Qt timers, the progress bar) are
    appended to a log, each with the session attributes as they are at the
    moment of the call. *)

From Stdlib Require Import ZArith Lia Ascii String.
From stdpp Require Import base option list strings.

Local Open Scope Z_scope.
Local Open Scope string_scope.
Local Open Scope list_scope.

(** ** Enumerations of [airunner.enums] used by the widget *)

Inductive LLMActionType :=
  | APPLICATION_COMMAND
  | CHAT
  | PERFORM_RAG_SEARCH
  | GENERATE_IMAGE.

Inductive ModelType :=
  | SD
  | LLM
  | OtherModel (name : string).

Inductive ModelStatus :=
  | LOADED
  | OtherStatus (name : string).

Global Instance ModelType_eq_dec : EqDecision ModelType.
Proof. solve_decision. Defined.

Global Instance ModelStatus_eq_dec : EqDecision ModelStatus.
Proof. solve_decision. Defined.

(** ** Data *)

(** [airunner.data.models.Conversation]: only its [id] is read here
    ([conv_id], since [id] is taken). *)
Record Conversation := { conv_id : Z }.

(** [self.user] and [self.chatbot], as far as the widget reads them.
    [bot_mood] and [bot_mood_emoji] are read with [getattr(..., None)]. *)
Record User := { username : string }.

Record Chatbot := {
  botname : string;
  bot_mood : option string;
  bot_mood_emoji : option string
}.

(** A [MessageWidget], by the keyword arguments of its constructor. *)
Record MessageWidget := {
  name : string;
  message : string;
  is_bot : bool;
  message_id : Z;
  mw_conversation_id : option Z;
  mood : option string;
  mood_emoji : option string
}.

(** Modelled from the spec: [MessageWidget.update_message] lives in
    [message_widget.py], which is not part of the sources at hand.  The
    specification (4.3, step 3) says the entry's content is mutated in
    place, "replacing, not appending, with the newly combined text". *)
Definition update_message (w : MessageWidget) (text : string) : MessageWidget :=
  {| name := name w; message := text; is_bot := is_bot w;
     message_id := message_id w; mw_conversation_id := mw_conversation_id w;
     mood := mood w; mood_emoji := mood_emoji w |}.

(** The spacer built by [add_spacer]: [QSpacerItem(20, 0, Minimum, Expanding)]. *)
Record QSpacerItem := { sp_width : Z; sp_height : Z }.

(** What [self.ui.scrollAreaWidgetContents.layout()] holds: message
    widgets, the widget's own spacer ([self.spacer]), or anything else the
    ui template put there ([other_widget] tells whether [item.widget()] is
    a widget or [None]). *)
Inductive LayoutItem :=
  | ItemMessage (w : MessageWidget)
  | ItemSpacer
  | ItemOther (other_widget : bool).

(** An element of [self.conversation_history]: a dict read at the keys
    ["is_bot"] and ["content"]. *)
Record HistoryEntry := { h_is_bot : bool; h_content : string }.

(** ** Calls that leave the widget *)

Inductive callback :=
  | ScrollToBottom
  | SetContentSize (w : MessageWidget).

(** A queued request for the chat prompt worker ([load_conversation]). *)
Record QueueData := { q_action : string; q_index : option Z }.

Inductive effect :=
  | SendRequest (prompt : string) (action : LLMActionType) (do_tts_reply : bool)
  | Interrupt
  | ClearHistory (conversation_id : option Z)
  | SwitchToNonArtMode
  | LogWarning (msg : string)
  | ProgressBarStart
  | ProgressBarStop
  | SendButtonEnable
  | SingleShot (msec : Z) (cb : callback)
  | DeleteLater
  | LayoutUpdate
  | AddToQueue (data : QueueData).

(** One log entry: the call, and [self.generating] and [self.held_message]
    as they are when the call is made. *)
Record Observed := {
  ev : effect;
  at_generating : bool;
  at_held : option string
}.

(** ** The widget *)

Record Widget := MkWidget {
  token_buffer : list string;
  generating : bool;
  prompt : string;
  held_message : option string;
  _conversation : option Conversation;
  _conversation_id : option Z;
  conversation_history : list HistoryEntry;
  chat_loaded : bool;
  spacer : option QSpacerItem;
  _disabled : bool;
  (* self.ui *)
  layout : list LayoutItem;
  ui_prompt : string;
  ui_conversation : string;
  (* collaborators and settings the methods read *)
  user : User;
  chatbot : Chatbot;
  llm_action : LLMActionType;
  model_load_balancer : option (list ModelType);
  (* calls made so far *)
  log : list Observed
}.

Definition set_token_buffer (v : list string) (s : Widget) : Widget :=
  MkWidget v (generating s) (prompt s) (held_message s) (_conversation s)
    (_conversation_id s) (conversation_history s) (chat_loaded s) (spacer s)
    (_disabled s) (layout s) (ui_prompt s) (ui_conversation s) (user s)
    (chatbot s) (llm_action s) (model_load_balancer s) (log s).

Definition set_generating (v : bool) (s : Widget) : Widget :=
  MkWidget (token_buffer s) v (prompt s) (held_message s) (_conversation s)
    (_conversation_id s) (conversation_history s) (chat_loaded s) (spacer s)
    (_disabled s) (layout s) (ui_prompt s) (ui_conversation s) (user s)
    (chatbot s) (llm_action s) (model_load_balancer s) (log s).

Definition set_prompt (v : string) (s : Widget) : Widget :=
  MkWidget (token_buffer s) (generating s) v (held_message s) (_conversation s)
    (_conversation_id s) (conversation_history s) (chat_loaded s) (spacer s)
    (_disabled s) (layout s) (ui_prompt s) (ui_conversation s) (user s)
    (chatbot s) (llm_action s) (model_load_balancer s) (log s).

Definition set_held_message (v : option string) (s : Widget) : Widget :=
  MkWidget (token_buffer s) (generating s) (prompt s) v (_conversation s)
    (_conversation_id s) (conversation_history s) (chat_loaded s) (spacer s)
    (_disabled s) (layout s) (ui_prompt s) (ui_conversation s) (user s)
    (chatbot s) (llm_action s) (model_load_balancer s) (log s).

Definition set__conversation (v : option Conversation) (s : Widget) : Widget :=
  MkWidget (token_buffer s) (generating s) (prompt s) (held_message s) v
    (_conversation_id s) (conversation_history s) (chat_loaded s) (spacer s)
    (_disabled s) (layout s) (ui_prompt s) (ui_conversation s) (user s)
    (chatbot s) (llm_action s) (model_load_balancer s) (log s).

Definition set__conversation_id (v : option Z) (s : Widget) : Widget :=
  MkWidget (token_buffer s) (generating s) (prompt s) (held_message s)
    (_conversation s) v (conversation_history s) (chat_loaded s) (spacer s)
    (_disabled s) (layout s) (ui_prompt s) (ui_conversation s) (user s)
    (chatbot s) (llm_action s) (model_load_balancer s) (log s).

Definition set_conversation_history (v : list HistoryEntry) (s : Widget) : Widget :=
  MkWidget (token_buffer s) (generating s) (prompt s) (held_message s)
    (_conversation s) (_conversation_id s) v (chat_loaded s) (spacer s)
    (_disabled s) (layout s) (ui_prompt s) (ui_conversation s) (user s)
    (chatbot s) (llm_action s) (model_load_balancer s) (log s).

Definition set_chat_loaded (v : bool) (s : Widget) : Widget :=
  MkWidget (token_buffer s) (generating s) (prompt s) (held_message s)
    (_conversation s) (_conversation_id s) (conversation_history s) v (spacer s)
    (_disabled s) (layout s) (ui_prompt s) (ui_conversation s) (user s)
    (chatbot s) (llm_action s) (model_load_balancer s) (log s).

Definition set_spacer (v : option QSpacerItem) (s : Widget) : Widget :=
  MkWidget (token_buffer s) (generating s) (prompt s) (held_message s)
    (_conversation s) (_conversation_id s) (conversation_history s)
    (chat_loaded s) v (_disabled s) (layout s) (ui_prompt s)
    (ui_conversation s) (user s) (chatbot s) (llm_action s)
    (model_load_balancer s) (log s).

Definition set__disabled (v : bool) (s : Widget) : Widget :=
  MkWidget (token_buffer s) (generating s) (prompt s) (held_message s)
    (_conversation s) (_conversation_id s) (conversation_history s)
    (chat_loaded s) (spacer s) v (layout s) (ui_prompt s)
    (ui_conversation s) (user s) (chatbot s) (llm_action s)
    (model_load_balancer s) (log s).

Definition set_layout (v : list LayoutItem) (s : Widget) : Widget :=
  MkWidget (token_buffer s) (generating s) (prompt s) (held_message s)
    (_conversation s) (_conversation_id s) (conversation_history s)
    (chat_loaded s) (spacer s) (_disabled s) v (ui_prompt s)
    (ui_conversation s) (user s) (chatbot s) (llm_action s)
    (model_load_balancer s) (log s).

Definition set_ui_prompt (v : string) (s : Widget) : Widget :=
  MkWidget (token_buffer s) (generating s) (prompt s) (held_message s)
    (_conversation s) (_conversation_id s) (conversation_history s)
    (chat_loaded s) (spacer s) (_disabled s) (layout s) v
    (ui_conversation s) (user s) (chatbot s) (llm_action s)
    (model_load_balancer s) (log s).

Definition set_ui_conversation (v : string) (s : Widget) : Widget :=
  MkWidget (token_buffer s) (generating s) (prompt s) (held_message s)
    (_conversation s) (_conversation_id s) (conversation_history s)
    (chat_loaded s) (spacer s) (_disabled s) (layout s) (ui_prompt s) v
    (user s) (chatbot s) (llm_action s) (model_load_balancer s) (log s).

Definition set_llm_action (v : LLMActionType) (s : Widget) : Widget :=
  MkWidget (token_buffer s) (generating s) (prompt s) (held_message s)
    (_conversation s) (_conversation_id s) (conversation_history s)
    (chat_loaded s) (spacer s) (_disabled s) (layout s) (ui_prompt s)
    (ui_conversation s) (user s) (chatbot s) v (model_load_balancer s) (log s).

Definition set_model_load_balancer (v : option (list ModelType)) (s : Widget)
  : Widget :=
  MkWidget (token_buffer s) (generating s) (prompt s) (held_message s)
    (_conversation s) (_conversation_id s) (conversation_history s)
    (chat_loaded s) (spacer s) (_disabled s) (layout s) (ui_prompt s)
    (ui_conversation s) (user s) (chatbot s) (llm_action s) v (log s).

Definition set_log (v : list Observed) (s : Widget) : Widget :=
  MkWidget (token_buffer s) (generating s) (prompt s) (held_message s)
    (_conversation s) (_conversation_id s) (conversation_history s)
    (chat_loaded s) (spacer s) (_disabled s) (layout s) (ui_prompt s)
    (ui_conversation s) (user s) (chatbot s) (llm_action s)
    (model_load_balancer s) v.

(** A call leaving the widget: logged with the session as it is now. *)
Definition emit (e : effect) (s : Widget) : Widget :=
  set_log (log s ++ [ {| ev := e; at_generating := generating s;
                         at_held := held_message s |} ]) s.

(** The [send_request] calls of the log, in order. *)
Definition is_send (c : Observed) : bool :=
  match ev c with
  | SendRequest _ _ _ => true
  | _ => false
  end.

Definition sends (s : Widget) : list Observed := List.filter is_send (log s).

(** ** Python helpers *)

(** Strings are the UTF-8 bytes of the Python text.  [str.lstrip()]
    strips the leading white space of Python ([str.isspace]): in one byte
    the tab, newline, vertical tab, form feed, carriage return, the
    separators 28..31 and the space; in two bytes U+0085 and U+00A0; in
    three bytes U+1680, U+2000..U+200A, U+2028, U+2029, U+202F, U+205F
    and U+3000. *)
Definition is_space (a : ascii) : bool :=
  let n := nat_of_ascii a in
  ((9 <=? n)%nat && (n <=? 13)%nat) || ((28 <=? n)%nat && (n <=? 32)%nat).

Definition is_space2 (a b : ascii) : bool :=
  let n := nat_of_ascii b in
  (nat_of_ascii a =? 194)%nat && ((n =? 133)%nat || (n =? 160)%nat).

Definition is_space3 (a b c : ascii) : bool :=
  let x := nat_of_ascii a in
  let y := nat_of_ascii b in
  let z := nat_of_ascii c in
  ((x =? 225)%nat && (y =? 154)%nat && (z =? 128)%nat)
  || ((x =? 226)%nat && (y =? 128)%nat
      && (((128 <=? z)%nat && (z <=? 138)%nat)
          || (z =? 168)%nat || (z =? 169)%nat || (z =? 175)%nat))
  || ((x =? 226)%nat && (y =? 129)%nat && (z =? 159)%nat)
  || ((x =? 227)%nat && (y =? 128)%nat && (z =? 128)%nat).

Fixpoint lstrip (m : string) : string :=
  match m with
  | EmptyString => EmptyString
  | String a rest1 =>
      if is_space a then lstrip rest1
      else
        match rest1 with
        | EmptyString => m
        | String b rest2 =>
            if is_space2 a b then lstrip rest2
            else
              match rest2 with
              | EmptyString => m
              | String c rest3 => if is_space3 a b c then lstrip rest3 else m
              end
        end
  end.

(** [''.join(fragments)] *)
Definition join (fragments : list string) : string := String.concat "" fragments.

(** ** Event payloads *)

Inductive exception :=
  | ValueError (msg : string)
  | KeyError (key : string).

(** A method call either returns or raises; both leave a widget behind. *)
Inductive outcome :=
  | Returned (s : Widget)
  | Raised (e : exception) (s : Widget).

Definition widget_of (o : outcome) : Widget :=
  match o with
  | Returned s => s
  | Raised _ s => s
  end.

(** [LLMResponse], by the attributes read in
    [on_add_bot_message_to_conversation]. *)
Record LLMResponse := {
  r_message : string;
  node_id : option string;
  is_first_message : bool;
  is_end_of_message : bool
}.

(** What [data.get("response", None)] finds: nothing (no key, or [None]),
    some other falsy value, or a response object. *)
Inductive ResponseEntry :=
  | NoResponse
  | FalsyResponse
  | Response (r : LLMResponse).

(** [data] of [on_delete_conversation]: the key may be missing, and its
    value may be [None]. *)
Record DeleteData := { dd_conversation_id : option (option Z) }.

Record MessageDict := { m_name : string; m_content : string; m_is_bot : bool }.

(** [data] of [on_load_conversation]: both keys are read with [get]. *)
Record LoadData := {
  ld_conversation_id : option Z;
  ld_messages : option (list MessageDict)
}.

Record ModelStatusData := { msd_model : ModelType; msd_status : ModelStatus }.

(** ** Stand-ins for the code outside the sources, for the examples *)

(** A name filter that finds no name to strip. *)
Definition strip_nothing (message username botname : string) : string := message.

(** A conversation table in which every id is present. *)
Definition any_conversation (z : Z) : option Conversation := Some {| conv_id := z |}.

(** A load balancer that unloads every model. *)
Definition unload_all (loaded : list ModelType) : list ModelType := [].

(** ** The methods *)

Section Methods.

(** Code of the repository outside the sources at hand, taken as given:
    the name filter applied to every message, the lookup
    [Conversation.objects.filter_by_first(id=...)], and what
    [switch_to_non_art_mode] does to the set of loaded models. *)
Variable strip_names_from_message : string -> string -> string -> string.
Variable filter_by_first : Z -> option Conversation.
Variable switch_to_non_art_mode : list ModelType -> list ModelType.

(** *** Properties and their setters *)

Definition conversation (s : Widget) : option Conversation := _conversation s.

Definition conversation_setter (val : option Conversation) (s : Widget) : Widget :=
  let s := set__conversation val s in
  set__conversation_id (match val with
                        | Some c => Some (conv_id c)
                        | None => None
                        end) s.

Definition conversation_id (s : Widget) : option Z := _conversation_id s.

Definition conversation_id_setter (val : option Z) (s : Widget) : Widget :=
  let s := set__conversation_id val s in
  match val with
  | Some z => if decide (z = 0) then set__conversation None s
              else set__conversation (filter_by_first z) s
  | None => set__conversation None s
  end.

(** *** Small ui methods *)

Definition clear_prompt (s : Widget) : Widget := set_ui_prompt "" s.

Definition prompt_text_changed (s : Widget) : Widget := set_prompt (ui_prompt s) s.

Definition start_progress_bar (s : Widget) : Widget := emit ProgressBarStart s.

Definition stop_progress_bar (s : Widget) : Widget := emit ProgressBarStop s.

(** The body is [pass]: both statements are commented out. *)
Definition disable_send_button (s : Widget) : Widget := s.

Definition enable_send_button (s : Widget) : Widget :=
  set__disabled false (emit SendButtonEnable s).

Definition singleShot (msec : Z) (cb : callback) (s : Widget) : Widget :=
  emit (SingleShot msec cb) s.

(** *** The spacer *)

(** [layout.removeItem(self.spacer)]: the first occurrence goes. *)
Fixpoint removeItem_spacer (items : list LayoutItem) : list LayoutItem :=
  match items with
  | [] => []
  | ItemSpacer :: rest => rest
  | item :: rest => item :: removeItem_spacer rest
  end.

Definition remove_spacer (s : Widget) : Widget :=
  match spacer s with
  | Some _ => set_layout (removeItem_spacer (layout s)) s
  | None => s
  end.

Definition add_spacer (s : Widget) : Widget :=
  let s := match spacer s with
           | None => set_spacer (Some {| sp_width := 20; sp_height := 0 |}) s
           | Some _ => s
           end in
  set_layout (layout s ++ [ItemSpacer]) s.

(** *** Clearing *)

Definition item_widget (item : LayoutItem) : bool :=
  match item with
  | ItemMessage _ => true
  | ItemSpacer => false
  | ItemOther w => w
  end.

(** The loop [while layout.count(): item = layout.takeAt(0) ...], by
    recursion on the items still in the layout. *)
Fixpoint take_items (items : list LayoutItem) (s : Widget) : Widget :=
  match items with
  | [] => s
  | item :: rest =>
      let s := set_layout rest s in
      let s := if item_widget item then emit DeleteLater s else s in
      take_items rest s
  end.

Definition _clear_conversation_widgets (skip_update : bool) (s : Widget) : Widget :=
  let s := take_items (layout s) s in
  if skip_update then s else emit LayoutUpdate s.

Definition _clear_conversation (skip_update : bool) (s : Widget) : Widget :=
  let s := set_conversation_history [] s in
  _clear_conversation_widgets skip_update s.

Definition on_clear_conversation (s : Widget) : Widget :=
  _clear_conversation false s.

Definition action_button_clicked_clear_conversation (s : Widget) : Widget :=
  emit (ClearHistory None) s.

Definition on_chatbot_changed (s : Widget) : Widget :=
  let s := emit (ClearHistory None) s in
  _clear_conversation false s.

(** *** add_message_to_conversation *)

(** The backward loop [for i in range(layout.count() - 1, -1, -1)]: the
    index and widget of the first [MessageWidget] met, scanning the
    indices below [n] downwards; other items are skipped. *)
Fixpoint last_message_below (items : list LayoutItem) (n : nat)
  : option (nat * MessageWidget) :=
  match n with
  | O => None
  | S i =>
      match items !! i with
      | Some (ItemMessage w) => Some (i, w)
      | _ => last_message_below items i
      end
  end.

Definition last_message (items : list LayoutItem) : option (nat * MessageWidget) :=
  last_message_below items (length items).

(** Lines 498 to 534: a new entry at the end of the layout. *)
Definition append_message (name message : string) (is_bot : bool) (s : Widget)
  : option MessageWidget * Widget :=
  let s := remove_spacer s in
  let '(widget, s) :=
    if decide (message = "") then (None, s)
    else
      let total_widgets := Z.of_nat (length (layout s)) - 1 in
      let total_widgets := if decide (total_widgets < 0) then 0 else total_widgets in
      let mood := if is_bot then bot_mood (chatbot s) else None in
      let mood_emoji := if is_bot then bot_mood_emoji (chatbot s) else None in
      let widget :=
        {| name := name; message := message; is_bot := is_bot;
           message_id := total_widgets;
           mw_conversation_id := conversation_id s;
           mood := if is_bot then mood else None;
           mood_emoji := if is_bot then mood_emoji else None |} in
      let s := set_layout (layout s ++ [ItemMessage widget]) s in
      let s := singleShot 0 ScrollToBottom s in
      (Some widget, s) in
  (widget, add_spacer s).

Definition add_message_to_conversation
    (name message : string) (is_bot first_message : bool) (s : Widget)
  : option MessageWidget * Widget :=
  let message :=
    strip_names_from_message (if first_message then lstrip message else message)
      (username (user s)) (botname (chatbot s)) in
  let found := if first_message then None else last_message (layout s) in
  match found with
  | Some (i, current_widget) =>
      match current_widget with
      | {| is_bot := true |} =>
          if decide (message = "") then (None, s)
          else
            let s := set_layout
                       (<[i := ItemMessage (update_message current_widget message)]>
                          (layout s)) s in
            (None, singleShot 0 ScrollToBottom s)
      | _ => append_message name message is_bot s
      end
  | None => append_message name message is_bot s
  end.

(** *** The generation session *)

Definition interrupt_button_clicked (s : Widget) : Widget :=
  let s := emit Interrupt s in
  let s := stop_progress_bar s in
  let s := set_generating false s in
  enable_send_button s.

(** Lines 326 to 337: the art model gives way when no LLM is loaded. *)
Definition unload_art_model (s : Widget) : Widget :=
  match model_load_balancer s with
  | Some loaded =>
      let art_model_loaded := bool_decide (SD ∈ loaded) in
      let llm_loaded := bool_decide (LLM ∈ loaded) in
      if art_model_loaded && negb llm_loaded
      then set_model_load_balancer (Some (switch_to_non_art_mode loaded))
             (emit SwitchToNonArtMode s)
      else s
  | None => s
  end.

(** The local [prompt] of [do_generate]. *)
Definition effective_prompt (prompt_override : option string) (s : Widget) : string :=
  match prompt_override with
  | None => prompt s
  | Some o => if decide (o = "") then prompt s else o
  end.

Definition do_generate (prompt_override : option string) (s : Widget) : Widget :=
  let prompt_ := effective_prompt prompt_override s in
  if decide (prompt_ = "") then emit (LogWarning "Prompt is empty") s
  else
    let s := unload_art_model s in
    if generating s then
      match held_message s with
      | None =>
          let s := set_held_message (Some prompt_) s in
          let s := disable_send_button s in
          interrupt_button_clicked s
      | Some _ => s
      end
    else
      let s := set_generating true s in
      let '(widget, s) :=
        add_message_to_conversation (username (user s)) (prompt s) false true s in
      let s := match widget with
               | Some w => singleShot 100 ScrollToBottom
                             (singleShot 100 (SetContentSize w) s)
               | None => s
               end in
      let s := clear_prompt s in
      let s := start_progress_bar s in
      emit (SendRequest prompt_ (llm_action s) false) s.

Definition enable_generate (s : Widget) : Widget :=
  let s := set_generating false s in
  let s := match held_message s with
           | Some held =>
               let s := do_generate (Some held) s in
               set_held_message None s
           | None => s
           end in
  enable_send_button s.

Definition action_button_clicked_send (s : Widget) : Widget := do_generate None s.

Definition on_hear_signal (transcription : string) (s : Widget) : Widget :=
  let s := set_prompt transcription s in
  do_generate None s.

(** *** Streaming *)

Definition on_add_bot_message_to_conversation (data : ResponseEntry) (s : Widget)
  : outcome :=
  match data with
  | NoResponse | FalsyResponse =>
      Raised (ValueError "No LLMResponse object found in data") s
  | Response llm_response =>
      match node_id llm_response with
      | Some _ => Returned s
      | None =>
          let s := set_token_buffer (token_buffer s ++ [r_message llm_response]) s in
          let s := if is_first_message llm_response then stop_progress_bar s else s in
          let s := if is_end_of_message llm_response then enable_generate s else s in
          Returned s
      end
  end.

(** The guard of [flush_token_buffer] (lines 255 to 259). *)
Definition not_last_bot_message (history : list HistoryEntry) (combined : string)
  : bool :=
  match last history with
  | None => true
  | Some entry =>
      negb (h_is_bot entry) || negb (bool_decide (h_content entry = combined))
  end.

(** Lines 253 to 265: what a flush does with the drained text. *)
Definition apply_combined_message (combined_message : string) (s : Widget)
  : Widget :=
  if decide (combined_message = "") then s
  else if not_last_bot_message (conversation_history s) combined_message
       then snd (add_message_to_conversation (botname (chatbot s))
                   combined_message true false s)
       else s.

Definition flush_token_buffer (s : Widget) : Widget :=
  let combined_message := join (token_buffer s) in
  let s := set_token_buffer [] s in
  apply_combined_message combined_message s.

Definition handle_token_signal (val : string) (s : Widget) : Widget :=
  if decide (val = "[END]") then
    let s := stop_progress_bar s in
    let s := set_generating false s in
    enable_send_button s
  else set_ui_conversation (ui_conversation s +:+ val) s.

Definition on_token_signal (val : string) (s : Widget) : Widget :=
  handle_token_signal val s.

Definition on_model_status_changed_signal (data : ModelStatusData) (s : Widget)
  : Widget :=
  let s := if decide (msd_model data = LLM)
           then set_chat_loaded (bool_decide (msd_status data = LOADED)) s
           else s in
  if chat_loaded s then enable_send_button s else disable_send_button s.

(** *** Conversation lifecycle *)

Fixpoint _set_conversation_widgets_loop (messages : list MessageDict) (s : Widget)
  : Widget :=
  match messages with
  | [] => s
  | m :: rest =>
      let s := snd (add_message_to_conversation (m_name m) (m_content m)
                      (m_is_bot m) true s) in
      _set_conversation_widgets_loop rest s
  end.

Definition _set_conversation_widgets (messages : list MessageDict)
    (skip_scroll : bool) (s : Widget) : Widget :=
  let s := _set_conversation_widgets_loop messages s in
  if skip_scroll then s else singleShot 100 ScrollToBottom s.

Definition on_load_conversation (data : LoadData) (s : Widget) : Widget :=
  let messages := default [] (ld_messages data) in
  let s :=
    match ld_conversation_id data with
    | Some cid =>
        let s := conversation_id_setter (Some cid) s in
        let s := emit (ClearHistory (Some cid)) s in
        let s := _clear_conversation true s in
        _set_conversation_widgets messages true s
    | None =>
        let s := _clear_conversation true s in
        conversation_setter None s
    end in
  singleShot 100 ScrollToBottom s.

Definition on_delete_conversation (data : DeleteData) (s : Widget) : outcome :=
  match dd_conversation_id data with
  | None => Raised (KeyError "conversation_id") s
  | Some deleted =>
      let s := if bool_decide (conversation_id s = deleted)
                  || bool_decide (conversation_id s = None)
               then _clear_conversation_widgets false s
               else s in
      Returned (conversation_setter None s)
  end.

Definition on_queue_load_conversation (data : QueueData) (s : Widget) : Widget :=
  emit (AddToQueue data) s.

Definition load_conversation (index : option Z) (s : Widget) : Widget :=
  on_queue_load_conversation
    {| q_action := "load_conversation"; q_index := index |} s.

Definition llm_action_changed (val : string) (s : Widget) : Widget :=
  let llm_action_value :=
    if decide (val = "Chat") then CHAT
    else if decide (val = "Image") then GENERATE_IMAGE
    else if decide (val = "RAG") then PERFORM_RAG_SEARCH
    else if decide (val = "Auto") then APPLICATION_COMMAND
    else APPLICATION_COMMAND in
  set_llm_action llm_action_value s.

(** *** The widget as a transition system *)

(** [__init__]: the attributes it assigns; the layout and the texts come
    from the ui template, the rest from settings. *)
Definition __init__ (ui_layout : list LayoutItem) (ui_prompt ui_conversation : string)
    (user : User) (chatbot : Chatbot) (action : LLMActionType)
    (balancer : option (list ModelType)) : Widget :=
  {| token_buffer := []; generating := false; prompt := "";
     held_message := None; _conversation := None; _conversation_id := None;
     conversation_history := []; chat_loaded := false; spacer := None;
     _disabled := false; layout := ui_layout; ui_prompt := ui_prompt;
     ui_conversation := ui_conversation; user := user; chatbot := chatbot;
     llm_action := action; model_load_balancer := balancer; log := [] |}.

(** The calls a widget can receive: its slots, signal handlers and
    methods, and two moves of its surroundings (the user edits the prompt
    box; settings or loaded models change).  [scroll_to_bottom],
    [showEvent], [resizeEvent] and the action menu only touch Qt objects
    that are not part of [Widget]. *)
Inductive op :=
  | OnLoadConversation (data : LoadData)
  | OnDeleteConversation (data : DeleteData)
  | OnQueueLoadConversation (data : QueueData)
  | LoadConversation (index : option Z)
  | OnTokenSignal (val : string)
  | OnModelStatusChangedSignal (data : ModelStatusData)
  | OnChatbotChanged
  | OnHearSignal (transcription : string)
  | OnAddBotMessageToConversation (data : ResponseEntry)
  | FlushTokenBuffer
  | EnableGenerate
  | ActionButtonClickedClearConversation
  | OnClearConversation
  | ActionButtonClickedSend
  | InterruptButtonClicked
  | DoGenerate (prompt_override : option string)
  | LlmActionChanged (val : string)
  | PromptTextChanged
  | ClearPrompt
  | StartProgressBar
  | StopProgressBar
  | DisableSendButton
  | EnableSendButton
  | AddMessageToConversation (name message : string) (is_bot first_message : bool)
  | UserEditsPrompt (text : string)
  | SettingsChange (user : User) (chatbot : Chatbot)
      (balancer : option (list ModelType)).

Definition step (o : op) (s : Widget) : outcome :=
  match o with
  | OnLoadConversation data => Returned (on_load_conversation data s)
  | OnDeleteConversation data => on_delete_conversation data s
  | OnQueueLoadConversation data => Returned (on_queue_load_conversation data s)
  | LoadConversation index => Returned (load_conversation index s)
  | OnTokenSignal val => Returned (on_token_signal val s)
  | OnModelStatusChangedSignal data =>
      Returned (on_model_status_changed_signal data s)
  | OnChatbotChanged => Returned (on_chatbot_changed s)
  | OnHearSignal transcription => Returned (on_hear_signal transcription s)
  | OnAddBotMessageToConversation data => on_add_bot_message_to_conversation data s
  | FlushTokenBuffer => Returned (flush_token_buffer s)
  | EnableGenerate => Returned (enable_generate s)
  | ActionButtonClickedClearConversation =>
      Returned (action_button_clicked_clear_conversation s)
  | OnClearConversation => Returned (on_clear_conversation s)
  | ActionButtonClickedSend => Returned (action_button_clicked_send s)
  | InterruptButtonClicked => Returned (interrupt_button_clicked s)
  | DoGenerate prompt_override => Returned (do_generate prompt_override s)
  | LlmActionChanged val => Returned (llm_action_changed val s)
  | PromptTextChanged => Returned (prompt_text_changed s)
  | ClearPrompt => Returned (clear_prompt s)
  | StartProgressBar => Returned (start_progress_bar s)
  | StopProgressBar => Returned (stop_progress_bar s)
  | DisableSendButton => Returned (disable_send_button s)
  | EnableSendButton => Returned (enable_send_button s)
  | AddMessageToConversation name message is_bot first_message =>
      Returned (snd (add_message_to_conversation name message is_bot
                       first_message s))
  | UserEditsPrompt text => Returned (set_ui_prompt text s)
  | SettingsChange u c b =>
      Returned (set_model_load_balancer b
                  (MkWidget (token_buffer s) (generating s) (prompt s)
                     (held_message s) (_conversation s) (_conversation_id s)
                     (conversation_history s) (chat_loaded s) (spacer s)
                     (_disabled s) (layout s) (ui_prompt s) (ui_conversation s)
                     u c (llm_action s) (model_load_balancer s) (log s)))
  end.

(** Running a list of calls, an exception ending only the call that
    raised it. *)
Definition run (ops : list op) (s : Widget) : Widget :=
  foldl (fun s o => widget_of (step o s)) s ops.

Definition initial (s : Widget) : Prop :=
  exists l p c u b a m, s = __init__ l p c u b a m.

Inductive reachable_by (allowed : op -> Prop) : Widget -> Prop :=
  | reach_initial s : initial s -> reachable_by allowed s
  | reach_step o s :
      reachable_by allowed s -> allowed o ->
      reachable_by allowed (widget_of (step o s)).

Definition reachable : Widget -> Prop := reachable_by (fun _ => True).

(** The four calls of the generation session. *)
Definition session_op (o : op) : Prop :=
  match o with
  | DoGenerate _ | InterruptButtonClicked | EnableGenerate
  | OnAddBotMessageToConversation _ => True
  | _ => False
  end.

Definition session_reachable : Widget -> Prop := reachable_by session_op.

(** *** Views of a widget used in the statements *)

(** The message events of a stream, as calls of the widget. *)
Definition stream (responses : list LLMResponse) : list op :=
  map (fun r => OnAddBotMessageToConversation (Response r)) responses.

(** The message entries of the view, in display order. *)
Definition item_message (item : LayoutItem) : option MessageWidget :=
  match item with
  | ItemMessage w => Some w
  | _ => None
  end.

Definition messages_of (items : list LayoutItem) : list MessageWidget :=
  omap item_message items.

Definition entries (s : Widget) : list MessageWidget := messages_of (layout s).

(** [s'] differs from [s] at most in the view (layout and spacer), in
    the loaded models, and in logged calls other than [send_request]. *)
Definition same_core (s s' : Widget) : Prop :=
  token_buffer s' = token_buffer s /\ generating s' = generating s /\
  prompt s' = prompt s /\ held_message s' = held_message s /\
  _conversation s' = _conversation s /\
  _conversation_id s' = _conversation_id s /\
  conversation_history s' = conversation_history s /\
  chat_loaded s' = chat_loaded s /\ _disabled s' = _disabled s /\
  ui_prompt s' = ui_prompt s /\ ui_conversation s' = ui_conversation s /\
  user s' = user s /\ chatbot s' = chatbot s /\
  llm_action s' = llm_action s /\
  sends s' = sends s.

(** *** Example widgets and calls *)

Definition fresh_widget : Widget :=
  __init__ [] "" "" {| username := "User" |}
    {| botname := "Bot"; bot_mood := None; bot_mood_emoji := None |} CHAT None.

(** A prompt is sent, a second one arrives while the first is answered. *)
Definition two_prompts : list op :=
  [DoGenerate (Some "a"); DoGenerate (Some "b")].

(** A third prompt arrives after the interrupt and is sent at once. *)
Definition three_prompts : list op :=
  [DoGenerate (Some "a"); DoGenerate (Some "b"); DoGenerate (Some "c")].

Definition hi_there : list LLMResponse :=
  [ {| r_message := "Hi"; node_id := None;
       is_first_message := true; is_end_of_message := false |};
    {| r_message := " there"; node_id := None;
       is_first_message := false; is_end_of_message := true |} ].

Definition user_hello : MessageWidget :=
  {| name := "User"; message := "hello"; is_bot := false; message_id := 0;
     mw_conversation_id := None; mood := None; mood_emoji := None |}.

Definition bot_hi : MessageWidget :=
  {| name := "Bot"; message := "Hi"; is_bot := true; message_id := 0;
     mw_conversation_id := None; mood := None; mood_emoji := None |}.

(** A prompt is typed and submitted, the answer "Hi there" arrives in two
    fragments and is flushed; then the same two fragments arrive again. *)
Definition answer_repeated : list op :=
  [UserEditsPrompt "hello"; PromptTextChanged; DoGenerate None]
  ++ stream hi_there ++ [FlushTokenBuffer] ++ stream hi_there.

Definition bot_hi_there : MessageWidget :=
  {| name := "Bot"; message := "Hi there"; is_bot := true; message_id := 0;
     mw_conversation_id := None; mood := None; mood_emoji := None |}.

(** Conversation 1 is loaded, without messages. *)
Definition load_one : list op :=
  [OnLoadConversation {| ld_conversation_id := Some 1; ld_messages := None |}].

(** A user message, then a bot message, each added whole. *)
Definition hello_hi : list op :=
  [AddMessageToConversation "User" "hello" false true;
   AddMessageToConversation "Bot" "Hi" true true].

(** *** The session properties, as the specification words them *)

(** "[held_prompt] is set only while [is_generating] is true", read as a
    property of a state. *)
Definition held_only_while_generating (s : Widget) : Prop :=
  held_message s <> None -> generating s = true.

(** "stores [prompt2] as held (overwriting any previously held prompt)"
    and "does not start a new backend request". *)
Definition last_write_wins (prompt_override : option string) (s : Widget) : Prop :=
  sends (do_generate prompt_override s) = sends s /\
  held_message (do_generate prompt_override s)
  = Some (effective_prompt prompt_override s).

(** "exactly one subsequent send call using the held prompt, and
    [held_prompt] is empty afterward", the held prompt being "cleared
    before re-submission": the one new [send_request] carries [held] and
    is made with nothing held any more. *)
Definition resubmits_after_clearing (held : string) (s : Widget) : Prop :=
  exists c,
    sends (enable_generate s) = sends s ++ [c] /\
    ev c = SendRequest held (llm_action s) false /\
    at_held c = None /\
    held_message (enable_generate s) = None.

(** "if the deleted conversation is the one currently active (or no
    conversation is active), clears the view; otherwise no-op". *)
Definition delete_clears_or_noop (deleted : option Z) (s : Widget) : Prop :=
  let s' := widget_of
              (on_delete_conversation {| dd_conversation_id := Some deleted |} s) in
  (conversation_id s = deleted \/ conversation_id s = None -> layout s' = []) /\
  (~ (conversation_id s = deleted \/ conversation_id s = None) -> s' = s).

(** *** The rest of the widget *)

(** The calls made so far, without the session they were made in. *)
Definition call_names (s : Widget) : list effect := map ev (log s).

Definition is_timer (e : effect) : Prop := exists msec cb, e = SingleShot msec cb.

(** The test of lines 328 to 336: an art model is loaded and no LLM is. *)
Definition art_model_in_the_way (s : Widget) : bool :=
  match model_load_balancer s with
  | Some loaded => bool_decide (SD ∈ loaded) && negb (bool_decide (LLM ∈ loaded))
  | None => false
  end.

(** The spacer in a layout. *)
Definition is_spacer (item : LayoutItem) : bool :=
  match item with
  | ItemSpacer => true
  | _ => false
  end.

Definition spacer_count (items : list LayoutItem) : nat :=
  length (List.filter is_spacer items).

(** The layout holds the widget's spacer at most once, and not at all
    before [add_spacer] has built it. *)
Definition spacer_ok (s : Widget) : Prop :=
  (spacer_count (layout s) <= 1)%nat /\
  (spacer s = None -> spacer_count (layout s) = 0%nat).

(** A key event, as far as [handle_key_press] looks at it: the key, and
    the modifier flags held down. *)
Inductive Key :=
  | Key_Return
  | Key_Other (code : Z).

Record KeyboardModifiers := {
  shift : bool;
  control : bool;
  alt : bool;
  meta : bool;
  keypad : bool;
  group_switch : bool
}.

Definition ShiftModifier : KeyboardModifiers :=
  {| shift := true; control := false; alt := false; meta := false;
     keypad := false; group_switch := false |}.

Record QKeyEvent := { key : Key; modifiers : KeyboardModifiers }.

#[global] Instance Key_eq_dec : EqDecision Key.
Proof. solve_decision. Defined.

#[global] Instance KeyboardModifiers_eq_dec : EqDecision KeyboardModifiers.
Proof. solve_decision. Defined.

#[global] Instance LLMActionType_eq_dec : EqDecision LLMActionType.
Proof. solve_decision. Defined.

(** [handle_key_press]: the widget afterwards, and whether the event went
    on to [originalKeyPressEvent].  [original] says that this attribute is
    there and is not [handle_key_press] itself (lines 448 to 451). *)
Definition handle_key_press (original : bool) (event : QKeyEvent) (s : Widget)
  : Widget * bool :=
  if decide (key event = Key_Return) then
    if negb (_disabled s) && negb (bool_decide (modifiers event = ShiftModifier))
    then (do_generate None s, false)
    else (s, original)
  else (s, original).

(** The action menu of [__init__] (lines 80 to 94): the labels with their
    actions, and the index the loop with [break] selects, if any. *)
Definition action_map (art_enabled : bool) : list (string * LLMActionType) :=
  [("Auto", APPLICATION_COMMAND); ("Chat", CHAT); ("RAG", PERFORM_RAG_SEARCH)]
  ++ (if art_enabled then [("Image", GENERATE_IMAGE)] else []).

Fixpoint current_index_from (idx : nat) (actions : list (string * LLMActionType))
    (current_action : LLMActionType) : option nat :=
  match actions with
  | [] => None
  | (_, action_type) :: rest =>
      if decide (current_action = action_type) then Some idx
      else current_index_from (S idx) rest current_action
  end.

Definition current_index (art_enabled : bool) (current_action : LLMActionType)
  : option nat :=
  current_index_from 0 (action_map art_enabled) current_action.

(** What [on_load_conversation] puts into the view for one message of its
    data: nothing when the filtered content is empty. *)
Definition rendered (s : Widget) (m : MessageDict) : option (string * string * bool) :=
  let content := strip_names_from_message (lstrip (m_content m))
                   (username (user s)) (botname (chatbot s)) in
  if decide (content = "") then None else Some (m_name m, content, m_is_bot m).

Definition shown (w : MessageWidget) : string * string * bool :=
  (name w, message w, is_bot w).

(** ** Properties *)

Ltac case_ifs :=
  repeat match goal with
         | |- context [if ?b then _ else _] => destruct b
         end.

(** *** The log of [send_request] calls *)

Lemma sends_emit (e : effect) (s : Widget) :
  sends (emit e s)
  = sends s ++ List.filter is_send
                 [ {| ev := e; at_generating := generating s;
                      at_held := held_message s |} ].
Proof. unfold sends, emit. simpl. apply List.filter_app. Qed.

Lemma sends_emit_other (e : effect) (s : Widget) :
  (forall p a t, e <> SendRequest p a t) -> sends (emit e s) = sends s.
Proof.
  intros Hne. rewrite sends_emit. simpl. unfold is_send. simpl.
  destruct e as [p a t| | | | | | | | | | |]; try (now rewrite app_nil_r).
  now destruct (Hne p a t).
Qed.

(** *** Changes that leave the core attributes alone *)

Lemma same_core_refl (s : Widget) : same_core s s.
Proof. unfold same_core. repeat split. Qed.

Lemma same_core_trans (s1 s2 s3 : Widget) :
  same_core s1 s2 -> same_core s2 s3 -> same_core s1 s3.
Proof.
  unfold same_core. intros H12 H23.
  repeat match goal with H : _ /\ _ |- _ => destruct H end.
  repeat split; etransitivity; eassumption.
Qed.

Lemma same_core_set_layout (l : list LayoutItem) (s : Widget) :
  same_core s (set_layout l s).
Proof. unfold same_core. repeat split. Qed.

Lemma same_core_set_spacer (sp : option QSpacerItem) (s : Widget) :
  same_core s (set_spacer sp s).
Proof. unfold same_core. repeat split. Qed.

Lemma same_core_emit (e : effect) (s : Widget) :
  (forall p a t, e <> SendRequest p a t) -> same_core s (emit e s).
Proof.
  intros Hne. unfold same_core. repeat split. now apply sends_emit_other.
Qed.

Lemma same_core_singleShot (msec : Z) (cb : callback) (s : Widget) :
  same_core s (singleShot msec cb s).
Proof. apply same_core_emit. discriminate. Qed.

Lemma same_core_remove_spacer (s : Widget) : same_core s (remove_spacer s).
Proof.
  unfold remove_spacer. destruct (spacer s).
  - apply same_core_set_layout.
  - apply same_core_refl.
Qed.

Lemma same_core_add_spacer (s : Widget) : same_core s (add_spacer s).
Proof.
  unfold add_spacer. destruct (spacer s).
  - apply same_core_set_layout.
  - eapply same_core_trans; [apply same_core_set_spacer | apply same_core_set_layout].
Qed.

Lemma same_core_append_message (name message : string) (is_bot : bool) (s : Widget) :
  same_core s (snd (append_message name message is_bot s)).
Proof.
  unfold append_message.
  eapply same_core_trans; [apply same_core_remove_spacer|].
  destruct (decide (message = "")); simpl.
  - apply same_core_add_spacer.
  - eapply same_core_trans; [|apply same_core_add_spacer].
    eapply same_core_trans; [|apply same_core_singleShot].
    apply same_core_set_layout.
Qed.

Lemma same_core_add_message_to_conversation
    (name message : string) (is_bot first_message : bool) (s : Widget) :
  same_core s (snd (add_message_to_conversation name message is_bot first_message s)).
Proof.
  unfold add_message_to_conversation.
  destruct (if first_message then None else last_message (layout s))
    as [[i [? ? [] ? ? ? ?]]|]; try apply same_core_append_message.
  destruct (decide _); simpl.
  - apply same_core_refl.
  - eapply same_core_trans; [apply same_core_set_layout | apply same_core_singleShot].
Qed.

Lemma same_core_take_items (items : list LayoutItem) (s : Widget) :
  same_core s (take_items items s).
Proof.
  revert s. induction items as [|item rest IH]; intros s; simpl.
  - apply same_core_refl.
  - eapply same_core_trans; [|apply IH].
    eapply same_core_trans; [apply same_core_set_layout|].
    destruct (item_widget item).
    + apply same_core_emit. discriminate.
    + apply same_core_refl.
Qed.

Lemma same_core__clear_conversation_widgets (skip_update : bool) (s : Widget) :
  same_core s (_clear_conversation_widgets skip_update s).
Proof.
  unfold _clear_conversation_widgets.
  destruct skip_update.
  - apply same_core_take_items.
  - eapply same_core_trans; [apply same_core_take_items|].
    apply same_core_emit. discriminate.
Qed.

Lemma same_core__set_conversation_widgets_loop
    (messages : list MessageDict) (s : Widget) :
  same_core s (_set_conversation_widgets_loop messages s).
Proof.
  revert s. induction messages as [|m rest IH]; intros s; simpl.
  - apply same_core_refl.
  - eapply same_core_trans; [|apply IH].
    apply same_core_add_message_to_conversation.
Qed.

Lemma same_core_unload_art_model (s : Widget) : same_core s (unload_art_model s).
Proof.
  unfold unload_art_model.
  destruct (model_load_balancer s) as [loaded|]; [|apply same_core_refl].
  destruct (_ && _); [|apply same_core_refl].
  unfold same_core. repeat split.
  unfold sends. simpl. rewrite List.filter_app. simpl. apply app_nil_r.
Qed.

(** *** [do_generate], branch by branch *)

Lemma do_generate_empty (o : option string) (s : Widget) :
  effective_prompt o s = "" ->
  do_generate o s = emit (LogWarning "Prompt is empty") s.
Proof. intros Hp. unfold do_generate. rewrite Hp. reflexivity. Qed.

Lemma do_generate_hold (o : option string) (s : Widget) :
  effective_prompt o s <> "" -> generating s = true -> held_message s = None ->
  do_generate o s
  = interrupt_button_clicked
      (set_held_message (Some (effective_prompt o s)) (unload_art_model s)).
Proof.
  intros Hp Hg Hh. unfold do_generate.
  destruct (decide (effective_prompt o s = "")) as [|_]; [done|].
  destruct (same_core_unload_art_model s) as (_ & Hg' & _ & Hh' & _).
  rewrite Hg', Hg, Hh', Hh. reflexivity.
Qed.

Lemma do_generate_held (o : option string) (s : Widget) (h : string) :
  effective_prompt o s <> "" -> generating s = true -> held_message s = Some h ->
  do_generate o s = unload_art_model s.
Proof.
  intros Hp Hg Hh. unfold do_generate.
  destruct (decide (effective_prompt o s = "")) as [|_]; [done|].
  destruct (same_core_unload_art_model s) as (_ & Hg' & _ & Hh' & _).
  rewrite Hg', Hg, Hh', Hh. reflexivity.
Qed.

Lemma do_generate_send (o : option string) (s : Widget) :
  effective_prompt o s <> "" -> generating s = false ->
  exists s1,
    same_core (set_generating true s) s1 /\
    do_generate o s
    = emit (SendRequest (effective_prompt o s) (llm_action s) false)
        (start_progress_bar (clear_prompt s1)).
Proof.
  intros Hp Hg. unfold do_generate.
  destruct (decide (effective_prompt o s = "")) as [|_]; [done|].
  pose proof (same_core_unload_art_model s) as Hu.
  destruct Hu as (Hu1 & Hg' & Hu).
  rewrite Hg', Hg.
  set (s0 := set_generating true (unload_art_model s)).
  pose proof (same_core_add_message_to_conversation
                (username (user s0)) (prompt s0) false true s0) as Ha.
  destruct (add_message_to_conversation _ _ _ _ s0) as [widget s1] eqn:Hadd.
  simpl in Ha.
  assert (Hs0 : same_core (set_generating true s) s0).
  { subst s0. unfold same_core in *. simpl. tauto. }
  destruct widget as [w|].
  - eexists. split.
    + eapply same_core_trans; [exact Hs0|].
      eapply same_core_trans; [exact Ha|].
      eapply same_core_trans; apply same_core_singleShot.
    + simpl.
      replace (llm_action s1) with (llm_action s); [reflexivity|].
      unfold same_core in *. simpl in *.
      destruct Ha as (_&_&_&_&_&_&_&_&_&_&_&_&_&->&_).
      symmetry. tauto.
  - exists s1. split.
    + eapply same_core_trans; [exact Hs0 | exact Ha].
    + simpl.
      replace (llm_action s1) with (llm_action s); [reflexivity|].
      unfold same_core in *. simpl in *.
      destruct Ha as (_&_&_&_&_&_&_&_&_&_&_&_&_&->&_).
      symmetry. tauto.
Qed.

Lemma do_generate_cases (o : option string) (s : Widget) :
  (effective_prompt o s = "" /\
   do_generate o s = emit (LogWarning "Prompt is empty") s)
  \/ (effective_prompt o s <> "" /\ generating s = true /\
      held_message s = None /\
      do_generate o s
      = interrupt_button_clicked
          (set_held_message (Some (effective_prompt o s)) (unload_art_model s)))
  \/ (effective_prompt o s <> "" /\ generating s = true /\
      held_message s <> None /\ do_generate o s = unload_art_model s)
  \/ (effective_prompt o s <> "" /\ generating s = false /\
      exists s1,
        same_core (set_generating true s) s1 /\
        do_generate o s
        = emit (SendRequest (effective_prompt o s) (llm_action s) false)
            (start_progress_bar (clear_prompt s1))).
Proof.
  destruct (decide (effective_prompt o s = "")) as [Hp|Hp].
  { left. split; [exact Hp | now apply do_generate_empty]. }
  right. destruct (generating s) eqn:Hg.
  - destruct (held_message s) as [h|] eqn:Hh.
    + right. left. repeat split; try done.
      now apply (do_generate_held o s h).
    + left. repeat split; try done. now apply do_generate_hold.
  - right. right. repeat split; try done. now apply do_generate_send.
Qed.

Lemma sends_interrupt_button_clicked (s : Widget) :
  sends (interrupt_button_clicked s) = sends s.
Proof.
  unfold interrupt_button_clicked, enable_send_button, stop_progress_bar, sends.
  simpl. rewrite !List.filter_app. simpl. now rewrite !app_nil_r.
Qed.

Lemma sends_enable_send_button (s : Widget) :
  sends (enable_send_button s) = sends s.
Proof.
  unfold enable_send_button, sends.
  simpl. rewrite !List.filter_app. simpl. now rewrite !app_nil_r.
Qed.

(** What a call of [do_generate] can do to [held_message]: leave it, or
    set it, which happens only from [None] while [generating] holds. *)
Lemma do_generate_held_message (o : option string) (s : Widget) :
  held_message (do_generate o s) = held_message s
  \/ (held_message s = None /\ generating s = true /\
      generating (do_generate o s) = false /\
      effective_prompt o s <> "" /\
      held_message (do_generate o s) = Some (effective_prompt o s)).
Proof.
  destruct (do_generate_cases o s)
    as [(Hp & ->)|[(Hp & Hg & Hh & ->)|[(Hp & Hg & Hh & ->)|(Hp & Hg & s1 & Hc & ->)]]].
  - left. reflexivity.
  - right. repeat split; done.
  - left. apply (same_core_unload_art_model s).
  - left. simpl. destruct Hc as (_&_&_&->&_). reflexivity.
Qed.

Lemma do_generate_conversation_history (o : option string) (s : Widget) :
  conversation_history (do_generate o s) = conversation_history s.
Proof.
  destruct (do_generate_cases o s)
    as [(Hp & ->)|[(Hp & Hg & Hh & ->)|[(Hp & Hg & Hh & ->)|(Hp & Hg & s1 & Hc & ->)]]].
  - reflexivity.
  - simpl. apply (same_core_unload_art_model s).
  - apply (same_core_unload_art_model s).
  - simpl. destruct Hc as (_&_&_&_&_&_&->&_). reflexivity.
Qed.

Lemma do_generate_token_buffer (o : option string) (s : Widget) :
  token_buffer (do_generate o s) = token_buffer s.
Proof.
  destruct (do_generate_cases o s)
    as [(Hp & ->)|[(Hp & Hg & Hh & ->)|[(Hp & Hg & Hh & ->)|(Hp & Hg & s1 & Hc & ->)]]].
  - reflexivity.
  - simpl. apply (same_core_unload_art_model s).
  - apply (same_core_unload_art_model s).
  - simpl. destruct Hc as (->&_). reflexivity.
Qed.

Lemma enable_generate_held_message (s : Widget) :
  held_message (enable_generate s) = None.
Proof.
  unfold enable_generate. simpl.
  destruct (held_message s) as [h|] eqn:Hh; simpl; [reflexivity | exact Hh].
Qed.

Lemma enable_generate_conversation_history (s : Widget) :
  conversation_history (enable_generate s) = conversation_history s.
Proof.
  unfold enable_generate. simpl.
  destruct (held_message s) as [h|]; simpl; [|reflexivity].
  now rewrite do_generate_conversation_history.
Qed.

Lemma enable_generate_token_buffer (s : Widget) :
  token_buffer (enable_generate s) = token_buffer s.
Proof.
  unfold enable_generate. simpl.
  destruct (held_message s) as [h|]; simpl; [|reflexivity].
  now rewrite do_generate_token_buffer.
Qed.

(** *** The lifecycle handlers and the flush leave the session alone *)

Lemma _clear_conversation_core (skip_update : bool) (s : Widget) :
  same_core (set_conversation_history [] s) (_clear_conversation skip_update s).
Proof. apply same_core__clear_conversation_widgets. Qed.

Lemma on_load_conversation_session (data : LoadData) (s : Widget) :
  generating (on_load_conversation data s) = generating s /\
  held_message (on_load_conversation data s) = held_message s /\
  token_buffer (on_load_conversation data s) = token_buffer s /\
  sends (on_load_conversation data s) = sends s /\
  conversation_history (on_load_conversation data s) = [].
Proof.
  unfold on_load_conversation.
  destruct (ld_conversation_id data) as [cid|].
  - set (s0 := emit (ClearHistory (Some cid)) (conversation_id_setter (Some cid) s)).
    assert (H0 : generating s0 = generating s /\ held_message s0 = held_message s /\
                 token_buffer s0 = token_buffer s /\ sends s0 = sends s).
    { subst s0. unfold conversation_id_setter.
      rewrite sends_emit_other by discriminate.
      destruct (decide (cid = 0)); repeat split. }
    pose proof (_clear_conversation_core true s0) as H1.
    pose proof (same_core__set_conversation_widgets_loop
                  (default [] (ld_messages data)) (_clear_conversation true s0)) as H2.
    pose proof (same_core_trans _ _ _ H1 H2) as H3.
    unfold _set_conversation_widgets, singleShot.
    rewrite sends_emit_other by discriminate.
    set (s1 := _set_conversation_widgets_loop _ _) in *.
    destruct H3 as (Ht & Hg & _ & Hh & _ & _ & Hc & _ & _ & _ & _ & _ & _ & _ & Hs).
    clearbody s1. unfold sends in *. simpl in *. rewrite Ht, Hg, Hh, Hc, Hs. tauto.
  - pose proof (_clear_conversation_core true s) as H1.
    unfold conversation_setter, singleShot.
    rewrite sends_emit_other by discriminate.
    set (s1 := _clear_conversation true s) in *.
    destruct H1 as (Ht & Hg & _ & Hh & _ & _ & Hc & _ & _ & _ & _ & _ & _ & _ & Hs).
    clearbody s1. unfold sends in *. simpl in *. rewrite Ht, Hg, Hh, Hc, Hs. tauto.
Qed.

Lemma on_delete_conversation_session (data : DeleteData) (s : Widget) :
  let s' := widget_of (on_delete_conversation data s) in
  generating s' = generating s /\ held_message s' = held_message s /\
  token_buffer s' = token_buffer s /\ sends s' = sends s /\
  conversation_history s' = conversation_history s.
Proof.
  unfold on_delete_conversation.
  destruct (dd_conversation_id data) as [deleted|]; [|simpl; tauto].
  cbv beta zeta iota delta [widget_of].
  destruct (_ || _); [|unfold conversation_setter; simpl; tauto].
  pose proof (same_core__clear_conversation_widgets false s) as H1.
  unfold conversation_setter.
  set (s1 := _clear_conversation_widgets false s) in *.
  destruct H1 as (Ht & Hg & _ & Hh & _ & _ & Hc & _ & _ & _ & _ & _ & _ & _ & Hs).
  clearbody s1. unfold sends in *. simpl in *. rewrite Ht, Hg, Hh, Hc, Hs. tauto.
Qed.

Lemma apply_combined_message_core (combined : string) (s : Widget) :
  same_core s (apply_combined_message combined s).
Proof.
  unfold apply_combined_message.
  destruct (decide (combined = "")); [apply same_core_refl|].
  destruct (not_last_bot_message _ _); [|apply same_core_refl].
  apply same_core_add_message_to_conversation.
Qed.

Lemma flush_token_buffer_session (s : Widget) :
  generating (flush_token_buffer s) = generating s /\
  held_message (flush_token_buffer s) = held_message s /\
  token_buffer (flush_token_buffer s) = [] /\
  sends (flush_token_buffer s) = sends s /\
  conversation_history (flush_token_buffer s) = conversation_history s.
Proof.
  unfold flush_token_buffer.
  pose proof (apply_combined_message_core (join (token_buffer s))
                (set_token_buffer [] s)) as H1.
  set (s1 := apply_combined_message _ _) in *.
  destruct H1 as (Ht & Hg & _ & Hh & _ & _ & Hc & _ & _ & _ & _ & _ & _ & _ & Hs).
  clearbody s1. unfold sends in *. simpl in *. rewrite Ht, Hg, Hh, Hc, Hs. tauto.
Qed.

Lemma on_add_bot_message_to_conversation_held (data : ResponseEntry) (s : Widget) :
  let s' := widget_of (on_add_bot_message_to_conversation data s) in
  held_message s' = held_message s \/ held_message s' = None.
Proof.
  unfold on_add_bot_message_to_conversation.
  destruct data as [| |r]; simpl; try (now left).
  destruct (node_id r); simpl; [now left|].
  destruct (is_end_of_message r).
  - right. apply enable_generate_held_message.
  - left. destruct (is_first_message r); reflexivity.
Qed.

Lemma on_add_bot_message_to_conversation_history (data : ResponseEntry) (s : Widget) :
  conversation_history (widget_of (on_add_bot_message_to_conversation data s))
  = conversation_history s.
Proof.
  unfold on_add_bot_message_to_conversation.
  destruct data as [| |r]; simpl; try reflexivity.
  destruct (node_id r); simpl; [reflexivity|].
  destruct (is_end_of_message r).
  - rewrite enable_generate_conversation_history.
    destruct (is_first_message r); reflexivity.
  - destruct (is_first_message r); reflexivity.
Qed.

(** *** Every call, one step *)

(** [held_message] after a call: as before, or [None], or newly set, and
    then the call started with [generating] set and nothing held, and
    ends with [generating] reset and a non-empty prompt held. *)
Lemma step_held_message (o : op) (s : Widget) :
  let s' := widget_of (step o s) in
  held_message s' = held_message s
  \/ held_message s' = None
  \/ (held_message s = None /\ generating s = true /\ generating s' = false /\
      exists p, p <> "" /\ held_message s' = Some p).
Proof.
  assert (Hgen : forall ov s0, generating s0 = generating s ->
                   held_message s0 = held_message s ->
            held_message (do_generate ov s0) = held_message s
            \/ held_message (do_generate ov s0) = None
            \/ (held_message s = None /\ generating s = true /\
                generating (do_generate ov s0) = false /\
                exists p, p <> "" /\ held_message (do_generate ov s0) = Some p)).
  { intros ov s0 Hg Hh.
    destruct (do_generate_held_message ov s0) as [->|(H1 & H2 & H3 & H4 & H5)].
    - left. exact Hh.
    - right. right. rewrite <- Hh, <- Hg. repeat split; try done.
      eexists. split; [exact H4 | exact H5]. }
  destruct o; cbv beta zeta iota delta [step widget_of].
  - left. apply on_load_conversation_session.
  - left. apply (on_delete_conversation_session data s).
  - left. reflexivity.
  - left. reflexivity.
  - left. unfold on_token_signal, handle_token_signal.
    destruct (decide _); reflexivity.
  - left. unfold on_model_status_changed_signal.
    destruct (decide _); simpl; case_ifs; reflexivity.
  - left. unfold on_chatbot_changed.
    apply (_clear_conversation_core false (emit (ClearHistory None) s)).
  - apply Hgen; reflexivity.
  - destruct (on_add_bot_message_to_conversation_held data s); tauto.
  - left. apply flush_token_buffer_session.
  - right. left. apply enable_generate_held_message.
  - left. reflexivity.
  - left. apply (_clear_conversation_core false s).
  - apply Hgen; reflexivity.
  - left. reflexivity.
  - apply Hgen; reflexivity.
  - left. reflexivity.
  - left. reflexivity.
  - left. reflexivity.
  - left. reflexivity.
  - left. reflexivity.
  - left. reflexivity.
  - left. reflexivity.
  - left. apply same_core_add_message_to_conversation.
  - left. reflexivity.
  - left. reflexivity.
Qed.

(** No call appends to [conversation_history]: it is left as it is, or
    reset to the empty list. *)
Lemma step_conversation_history (o : op) (s : Widget) :
  conversation_history (widget_of (step o s)) = conversation_history s
  \/ conversation_history (widget_of (step o s)) = [].
Proof.
  destruct o; cbv beta zeta iota delta [step widget_of].
  - right. apply on_load_conversation_session.
  - left. apply (on_delete_conversation_session data s).
  - left. reflexivity.
  - left. reflexivity.
  - left. unfold on_token_signal, handle_token_signal.
    destruct (decide _); reflexivity.
  - left. unfold on_model_status_changed_signal.
    destruct (decide _); simpl; case_ifs; reflexivity.
  - right. unfold on_chatbot_changed.
    apply (_clear_conversation_core false (emit (ClearHistory None) s)).
  - left. unfold on_hear_signal. now rewrite do_generate_conversation_history.
  - left. apply on_add_bot_message_to_conversation_history.
  - left. apply flush_token_buffer_session.
  - left. apply enable_generate_conversation_history.
  - left. reflexivity.
  - right. apply (_clear_conversation_core false s).
  - left. apply do_generate_conversation_history.
  - left. reflexivity.
  - left. apply do_generate_conversation_history.
  - left. reflexivity.
  - left. reflexivity.
  - left. reflexivity.
  - left. reflexivity.
  - left. reflexivity.
  - left. reflexivity.
  - left. reflexivity.
  - left. apply same_core_add_message_to_conversation.
  - left. reflexivity.
  - left. reflexivity.
Qed.

Lemma reachable_by_mono (P Q : op -> Prop) (s : Widget) :
  (forall o, P o -> Q o) -> reachable_by P s -> reachable_by Q s.
Proof.
  intros HPQ Hr. induction Hr as [s Hi|o s Hr IH Ho].
  - now apply reach_initial.
  - apply reach_step; [exact IH | now apply HPQ].
Qed.

Lemma session_reachable_reachable (s : Widget) :
  session_reachable s -> reachable s.
Proof. now apply reachable_by_mono. Qed.

Lemma reachable_conversation_history (s : Widget) :
  reachable s -> conversation_history s = [].
Proof.
  intros Hr. induction Hr as [s (l & p & c & u & b & a & m & ->)|o s Hr IH _].
  - reflexivity.
  - destruct (step_conversation_history o s) as [->| ->]; [exact IH | reflexivity].
Qed.

(** A held prompt is never the empty string. *)
Lemma reachable_held_nonempty (s : Widget) :
  reachable s -> held_message s <> Some "".
Proof.
  intros Hr. induction Hr as [s (l & p & c & u & b & a & m & ->)|o s Hr IH _].
  - discriminate.
  - destruct (step_held_message o s) as [->|[->|(_ & _ & _ & p & Hp & ->)]].
    + exact IH.
    + discriminate.
    + intros [= ->]. now apply Hp.
Qed.

(** *** The generation session *)

(** C1 (as amended).  [held_message] goes from [None] to a prompt only in
    a call that starts while [generating] is true; the prompt stored is
    not empty, and the same call leaves [generating] false, because
    [do_generate] holds the prompt and then calls
    [interrupt_button_clicked].  This holds for every call of the widget,
    the four session calls among them. *)
Theorem held_message_set_only_while_generating (o : op) (s : Widget) (p : string) :
  held_message s = None ->
  held_message (widget_of (step o s)) = Some p ->
  generating s = true /\ generating (widget_of (step o s)) = false /\ p <> "".
Proof.
  intros Hnone Hsome.
  destruct (step_held_message o s) as [H|[H|(_ & Hg & Hg' & q & Hq & H)]].
  - rewrite H, Hnone in Hsome. discriminate.
  - rewrite H in Hsome. discriminate.
  - rewrite H in Hsome. injection Hsome as <-. done.
Qed.

(** C2 (as amended).  A [do_generate] call with a non-empty prompt made
    while [generating] is true issues no [send_request]; it stores the
    prompt as held when nothing is held, and otherwise keeps the prompt
    already held (the first one wins). *)
Theorem do_generate_while_generating (o : option string) (s : Widget) :
  generating s = true ->
  effective_prompt o s <> "" ->
  sends (do_generate o s) = sends s /\
  held_message (do_generate o s)
  = Some (default (effective_prompt o s) (held_message s)).
Proof.
  intros Hg Hp.
  pose proof (same_core_unload_art_model s) as Hu.
  destruct (held_message s) as [h|] eqn:Hh.
  - rewrite (do_generate_held o s h Hp Hg Hh). simpl. split.
    + apply Hu.
    + destruct Hu as (_ & _ & _ & -> & _). exact Hh.
  - rewrite (do_generate_hold o s Hp Hg Hh). split; [|reflexivity].
    rewrite sends_interrupt_button_clicked. apply Hu.
Qed.

(** C3 (as amended).  When [enable_generate] runs on a reachable widget
    that holds a prompt, exactly one [send_request] is issued, with the
    held prompt; it is issued while the prompt is still held, and
    [held_message] is [None] once [enable_generate] returns: the prompt
    is cleared after the re-submission, not before it. *)
Theorem enable_generate_resubmits_held (s : Widget) (held : string) :
  reachable s ->
  held_message s = Some held ->
  sends (enable_generate s)
  = sends s ++ [ {| ev := SendRequest held (llm_action s) false;
                    at_generating := true; at_held := Some held |} ] /\
  held_message (enable_generate s) = None.
Proof.
  intros Hr Hh. split; [|apply enable_generate_held_message].
  assert (Hne : held <> "").
  { intros ->. now apply (reachable_held_nonempty s Hr). }
  unfold enable_generate. simpl. rewrite Hh.
  rewrite sends_enable_send_button.
  set (s0 := set_generating false s).
  assert (Hp : effective_prompt (Some held) s0 = held).
  { unfold effective_prompt. destruct (decide (held = "")); done. }
  destruct (do_generate_send (Some held) s0) as (s1 & Hc & ->).
  { now rewrite Hp. }
  { reflexivity. }
  rewrite Hp.
  destruct Hc as (_ & Hg1 & _ & Hh1 & _ & _ & _ & _ & _ & _ & _ & _ & _ & _ & Hs1).
  subst s0. simpl in Hg1, Hh1.
  change (sends (set_generating true (set_generating false s))) with (sends s) in Hs1.
  unfold sends in *. simpl.
  rewrite !List.filter_app. simpl.
  rewrite app_nil_r, Hs1, Hg1, Hh1, Hh. reflexivity.
Qed.

(** *** The backward search and the entries of the view *)

Lemma messages_of_app (l1 l2 : list LayoutItem) :
  messages_of (l1 ++ l2) = messages_of l1 ++ messages_of l2.
Proof. apply omap_app. Qed.

Lemma last_message_below_app (l1 l2 : list LayoutItem) (n : nat) :
  (n <= length l1)%nat ->
  last_message_below (l1 ++ l2) n = last_message_below l1 n.
Proof.
  induction n as [|i IH]; intros Hn; simpl; [reflexivity|].
  rewrite lookup_app_l by lia. rewrite IH by lia. reflexivity.
Qed.

Lemma last_message_snoc (l : list LayoutItem) (x : LayoutItem) :
  last_message (l ++ [x])
  = match x with
    | ItemMessage w => Some (length l, w)
    | _ => last_message l
    end.
Proof.
  unfold last_message. rewrite length_app. simpl.
  replace (length l + 1)%nat with (S (length l)) by lia. simpl.
  rewrite list_lookup_middle by reflexivity.
  destruct x; try reflexivity; now apply last_message_below_app.
Qed.

(** The search finds the last message entry, and nothing but other
    items lies behind it. *)
Lemma last_message_Some (l : list LayoutItem) (i : nat) (w : MessageWidget) :
  last_message l = Some (i, w) ->
  exists l1 l2,
    l = l1 ++ ItemMessage w :: l2 /\ length l1 = i /\ messages_of l2 = [].
Proof.
  revert i w. induction l as [|x l IH] using rev_ind; intros i w Hl.
  - discriminate.
  - rewrite last_message_snoc in Hl. destruct x as [w'| |b].
    + injection Hl as <- <-. exists l, []. repeat split.
    + destruct (IH _ _ Hl) as (l1 & l2 & -> & <- & Hm).
      exists l1, (l2 ++ [ItemSpacer]). rewrite <- app_assoc. simpl.
      repeat split. rewrite messages_of_app, Hm. reflexivity.
    + destruct (IH _ _ Hl) as (l1 & l2 & -> & <- & Hm).
      exists l1, (l2 ++ [ItemOther b]). rewrite <- app_assoc. simpl.
      repeat split. rewrite messages_of_app, Hm. reflexivity.
Qed.

Lemma last_message_entries (l : list LayoutItem) :
  last (messages_of l) = snd <$> last_message l.
Proof.
  induction l as [|x l IH] using rev_ind; [reflexivity|].
  rewrite last_message_snoc, messages_of_app.
  destruct x as [w| |b]; simpl.
  - apply last_snoc.
  - now rewrite app_nil_r.
  - now rewrite app_nil_r.
Qed.

Lemma messages_of_removeItem_spacer (l : list LayoutItem) :
  messages_of (removeItem_spacer l) = messages_of l.
Proof.
  induction l as [|x l IH]; [reflexivity|].
  destruct x as [w| |b]; simpl; try reflexivity.
  - unfold messages_of in *. simpl. now rewrite IH.
  - unfold messages_of in *. simpl. exact IH.
Qed.

Lemma entries_remove_spacer (s : Widget) : entries (remove_spacer s) = entries s.
Proof.
  unfold remove_spacer, entries. destruct (spacer s); [|reflexivity].
  simpl. apply messages_of_removeItem_spacer.
Qed.

Lemma entries_add_spacer (s : Widget) : entries (add_spacer s) = entries s.
Proof.
  unfold add_spacer, entries. destruct (spacer s); simpl;
    rewrite messages_of_app; simpl; apply app_nil_r.
Qed.

(** *** [add_message_to_conversation], path by path *)

Lemma last_entry_found (s : Widget) (w : MessageWidget) :
  last (entries s) = Some w ->
  exists i, last_message (layout s) = Some (i, w).
Proof.
  unfold entries. rewrite last_message_entries.
  destruct (last_message (layout s)) as [[i w']|]; simpl; [|discriminate].
  intros [= ->]. now exists i.
Qed.

Lemma last_entry_not_found (s : Widget) :
  last (entries s) = None -> last_message (layout s) = None.
Proof.
  unfold entries. rewrite last_message_entries.
  destruct (last_message (layout s)) as [[i w']|]; simpl; [discriminate|done].
Qed.

(** The update path: the last entry is a bot message. *)
Lemma add_message_mutate (n text : string) (b : bool) (s : Widget) (w : MessageWidget) :
  let m := strip_names_from_message text (username (user s)) (botname (chatbot s)) in
  last (entries s) = Some w -> is_bot w = true -> m <> "" ->
  exists l1 l2,
    layout s = l1 ++ ItemMessage w :: l2 /\ messages_of l2 = [] /\
    add_message_to_conversation n text b false s
    = (None, singleShot 0 ScrollToBottom
               (set_layout (l1 ++ ItemMessage (update_message w m) :: l2) s)).
Proof.
  intros m Hlast Hbot Hm.
  destruct (last_entry_found s w Hlast) as (i & Hfound).
  destruct (last_message_Some _ _ _ Hfound) as (l1 & l2 & Hl & Hi & Hl2).
  exists l1, l2. repeat split; try done.
  unfold add_message_to_conversation. rewrite Hfound.
  fold m. destruct (decide (m = "")) as [|_]; [done|].
  destruct w as [wn wm wb wid wc wmo wme]. simpl in Hbot. subst wb.
  rewrite Hl at 1. rewrite insert_app_r_alt by lia.
  replace (i - length l1)%nat with O by lia. reflexivity.
Qed.

Lemma add_message_mutate_nothing (n text : string) (b : bool) (s : Widget)
    (w : MessageWidget) :
  last (entries s) = Some w -> is_bot w = true ->
  strip_names_from_message text (username (user s)) (botname (chatbot s)) = "" ->
  add_message_to_conversation n text b false s = (None, s).
Proof.
  intros Hlast Hbot Hm.
  destruct (last_entry_found s w Hlast) as (i & Hfound).
  unfold add_message_to_conversation. rewrite Hfound, Hm.
  destruct w as [wn wm wb wid wc wmo wme]. simpl in Hbot. subst wb.
  reflexivity.
Qed.

(** The append path: a whole message, or no bot message to extend. *)
Lemma add_message_append (n text : string) (b first_message : bool) (s : Widget) :
  first_message = true
  \/ last (entries s) = None
  \/ (exists w, last (entries s) = Some w /\ is_bot w = false) ->
  add_message_to_conversation n text b first_message s
  = append_message n
      (strip_names_from_message (if first_message then lstrip text else text)
         (username (user s)) (botname (chatbot s))) b s.
Proof.
  intros H. unfold add_message_to_conversation.
  destruct first_message; [reflexivity|].
  destruct H as [H|[H|(w & Hlast & Hbot)]]; [discriminate| |].
  - now rewrite (last_entry_not_found s H).
  - destruct (last_entry_found s w Hlast) as (i & ->).
    destruct w as [wn wm wb wid wc wmo wme]. simpl in Hbot. subst wb.
    reflexivity.
Qed.

Lemma append_message_nothing (n : string) (b : bool) (s : Widget) :
  append_message n "" b s = (None, add_spacer (remove_spacer s)).
Proof. reflexivity. Qed.

(** The entry built by [append_message]: its [message_id] is the number
    of items left in the layout once the spacer is out, minus one, and
    not below zero. *)
Lemma append_message_entry (n m : string) (b : bool) (s : Widget) :
  m <> "" ->
  exists w,
    fst (append_message n m b s) = Some w /\
    entries (snd (append_message n m b s)) = entries s ++ [w] /\
    name w = n /\ message w = m /\ is_bot w = b /\
    message_id w = Z.max 0 (Z.of_nat (length (layout (remove_spacer s))) - 1).
Proof.
  intros Hm. unfold append_message.
  destruct (decide (m = "")) as [|_]; [done|].
  eexists. split; [reflexivity|]. simpl.
  split.
  - rewrite entries_add_spacer. unfold entries. simpl.
    rewrite messages_of_app. simpl. f_equal. apply entries_remove_spacer.
  - repeat split. destruct (decide _); lia.
Qed.

Lemma entries_append_message_nothing (n : string) (b : bool) (s : Widget) :
  entries (snd (append_message n "" b s)) = entries s.
Proof.
  rewrite append_message_nothing. simpl.
  now rewrite entries_add_spacer, entries_remove_spacer.
Qed.

Lemma add_message_mutate_entries (n text : string) (b : bool) (s : Widget)
    (w : MessageWidget) :
  let m := strip_names_from_message text (username (user s)) (botname (chatbot s)) in
  let s' := snd (add_message_to_conversation n text b false s) in
  last (entries s) = Some w -> is_bot w = true -> m <> "" ->
  exists before,
    entries s = before ++ [w] /\
    entries s' = before ++ [update_message w m] /\
    length (layout s') = length (layout s).
Proof.
  intros m s' Hlast Hbot Hm. subst s'.
  destruct (add_message_mutate n text b s w Hlast Hbot Hm)
    as (l1 & l2 & Hl & Hl2 & ->).
  exists (messages_of l1). unfold entries. simpl. rewrite Hl.
  rewrite !messages_of_app. simpl.
  change (messages_of (ItemMessage w :: l2)) with (w :: messages_of l2).
  change (messages_of (ItemMessage (update_message w m) :: l2))
    with (update_message w m :: messages_of l2).
  rewrite Hl2. repeat split. rewrite !length_app. reflexivity.
Qed.

Lemma add_message_append_entries (n text : string) (b : bool) (s : Widget) :
  let m := strip_names_from_message text (username (user s)) (botname (chatbot s)) in
  let s' := snd (add_message_to_conversation n text b false s) in
  last (entries s) = None
  \/ (exists w, last (entries s) = Some w /\ is_bot w = false) ->
  m <> "" ->
  exists w',
    entries s' = entries s ++ [w'] /\
    name w' = n /\ message w' = m /\ is_bot w' = b.
Proof.
  intros m s' Hlast Hm. subst s'.
  rewrite add_message_append by tauto.
  destruct (append_message_entry n m b s Hm) as (w' & _ & He & Hn & Hmsg & Hb & _).
  exists w'. tauto.
Qed.

(** *** Mutation and append *)

(** C6.  Streamed text applied with [first_message=False], the text left
    by the name filter being non-empty.  If the most recent message entry
    of the view is a bot message, that entry's content becomes the new
    text, the other entries and the number of layout items stay as they
    are; if it is not a bot message, a new entry with the text is
    appended and the number of entries grows by one. *)
Theorem add_message_mutates_bot_or_appends
    (n text : string) (b : bool) (s : Widget) (w : MessageWidget) :
  let m := strip_names_from_message text (username (user s)) (botname (chatbot s)) in
  let s' := snd (add_message_to_conversation n text b false s) in
  last (entries s) = Some w ->
  m <> "" ->
  (is_bot w = true ->
   exists before,
     entries s = before ++ [w] /\
     entries s' = before ++ [update_message w m] /\
     message (update_message w m) = m /\
     length (entries s') = length (entries s) /\
     length (layout s') = length (layout s))
  /\ (is_bot w = false ->
      exists w',
        entries s' = entries s ++ [w'] /\
        message w' = m /\ is_bot w' = b /\
        length (entries s') = S (length (entries s))).
Proof.
  intros m s' Hlast Hm. split; intros Hbot.
  - destruct (add_message_mutate_entries n text b s w Hlast Hbot Hm)
      as (before & He & He' & Hlen).
    exists before. fold s' in He', Hlen. fold m in He'.
    repeat split; try done.
    rewrite He, He', !length_app. reflexivity.
  - destruct (add_message_append_entries n text b s) as (w' & He & _ & Hmsg & Hb).
    { right. now exists w. }
    { exact Hm. }
    exists w'. fold s' in He. fold m in Hmsg.
    repeat split; try done.
    rewrite He, length_app. simpl. lia.
Qed.

(** *** The same text twice *)

(** A bot message streamed twice with [first_message=False]: the second
    call finds the entry the first one wrote or extended. *)
Lemma add_bot_message_twice (n text : string) (s : Widget) :
  let s1 := snd (add_message_to_conversation n text true false s) in
  let s2 := snd (add_message_to_conversation n text true false s1) in
  length (entries s2) = length (entries s1).
Proof.
  intros s1 s2.
  set (m := strip_names_from_message text (username (user s)) (botname (chatbot s))).
  pose proof (same_core_add_message_to_conversation n text true false s) as Hc.
  fold s1 in Hc.
  destruct Hc as (_&_&_&_&_&_&_&_&_&_&_& Hu & Hb &_).
  assert (Hm1 : strip_names_from_message text (username (user s1))
                  (botname (chatbot s1)) = m).
  { now rewrite Hu, Hb. }
  assert (Hmut : forall w1, last (entries s1) = Some w1 -> is_bot w1 = true ->
                   m <> "" -> length (entries s2) = length (entries s1)).
  { intros w1 Hl1 Hb1 Hm.
    destruct (add_message_mutate_entries n text true s1 w1 Hl1 Hb1)
      as (before & He & He' & _).
    { now rewrite Hm1. }
    fold s2 in He'. rewrite He, He', !length_app. reflexivity. }
  assert (Happ : last (entries s) = None
                 \/ (exists w, last (entries s) = Some w /\ is_bot w = false) ->
                 length (entries s2) = length (entries s1)).
  { intros Hlast. destruct (decide (m = "")) as [Hm|Hm].
    - assert (He1 : entries s1 = entries s).
      { subst s1. rewrite add_message_append by tauto. fold m. rewrite Hm.
        apply entries_append_message_nothing. }
      subst s2. rewrite add_message_append by (rewrite He1; tauto).
      rewrite Hm1, Hm. now rewrite entries_append_message_nothing.
    - destruct (add_message_append_entries n text true s Hlast Hm)
        as (w' & He & _ & _ & Hb').
      fold s1 in He. apply (Hmut w'); try done.
      rewrite He. apply last_snoc. }
  destruct (last (entries s)) as [w|] eqn:Hlast; [|apply Happ; now left].
  destruct (is_bot w) eqn:Hbot; [|apply Happ; right; now exists w].
  destruct (decide (m = "")) as [Hm|Hm].
  - assert (Hs1 : s1 = s).
    { subst s1. now rewrite (add_message_mutate_nothing n text true s w). }
    subst s2. rewrite Hs1. fold s1. now rewrite Hs1.
  - destruct (add_message_mutate_entries n text true s w Hlast Hbot Hm)
      as (before & He & He' & _).
    fold s1 in He'. apply (Hmut (update_message w m)); try done.
    rewrite He'. apply last_snoc.
Qed.

Lemma apply_combined_message_guarded (combined : string) (s : Widget)
    (entry : HistoryEntry) :
  last (conversation_history s) = Some entry ->
  h_is_bot entry = true -> h_content entry = combined ->
  apply_combined_message combined s = s.
Proof.
  intros Hlast Hbot Hcontent. unfold apply_combined_message.
  destruct (decide (combined = "")); [reflexivity|].
  unfold not_last_bot_message. rewrite Hlast, Hbot. simpl.
  now rewrite bool_decide_eq_true_2.
Qed.

Lemma apply_combined_message_twice (combined : string) (s : Widget) :
  let s1 := apply_combined_message combined s in
  let s2 := apply_combined_message combined s1 in
  length (entries s2) = length (entries s1) /\
  length (conversation_history s2) = length (conversation_history s1).
Proof.
  intros s1 s2. split.
  - pose proof (apply_combined_message_core combined s) as Hc. fold s1 in Hc.
    destruct Hc as (_&_&_&_&_&_& Hh &_&_&_&_&_& Hb &_).
    subst s2 s1. unfold apply_combined_message in *.
    destruct (decide (combined = "")); [reflexivity|].
    rewrite Hh.
    destruct (not_last_bot_message (conversation_history s) combined); [|reflexivity].
    rewrite Hb. apply add_bot_message_twice.
  - pose proof (apply_combined_message_core combined s1) as Hc. fold s2 in Hc.
    destruct Hc as (_&_&_&_&_&_& -> &_). reflexivity.
Qed.

Lemma set_token_buffer_drained (fragments : list string) (s : Widget) :
  token_buffer s = [] -> set_token_buffer [] (set_token_buffer fragments s) = s.
Proof. destruct s. simpl. intros ->. reflexivity. Qed.

Lemma flush_token_buffer_refill (fragments : list string) (s : Widget) :
  flush_token_buffer (set_token_buffer fragments (flush_token_buffer s))
  = apply_combined_message (join fragments) (flush_token_buffer s).
Proof.
  unfold flush_token_buffer at 1. simpl.
  rewrite set_token_buffer_drained; [reflexivity|].
  apply flush_token_buffer_session.
Qed.

(** Two flushes in a row that drain the same text: the second one adds
    no entry to the view and leaves the length of [conversation_history]
    alone; and were the last history entry a bot message with that text,
    the second flush would change nothing at all. *)
Lemma same_text_twice_no_new_entry (fragments : list string) (s : Widget) :
  join fragments = join (token_buffer s) ->
  let s1 := flush_token_buffer s in
  let s2 := flush_token_buffer (set_token_buffer fragments s1) in
  length (entries s2) = length (entries s1) /\
  length (conversation_history s2) = length (conversation_history s1) /\
  (forall entry,
      last (conversation_history s1) = Some entry ->
      h_is_bot entry = true -> h_content entry = join fragments ->
      s2 = s1).
Proof.
  intros Hsame s1 s2.
  assert (H2 : s2 = apply_combined_message (join fragments) s1)
    by apply flush_token_buffer_refill.
  clearbody s2. subst s2.
  split; [|split].
  - unfold s1, flush_token_buffer. rewrite Hsame.
    apply apply_combined_message_twice.
  - unfold s1, flush_token_buffer. rewrite Hsame.
    apply apply_combined_message_twice.
  - intros entry Hlast Hbot Hcontent.
    now apply (apply_combined_message_guarded _ s1 entry).
Qed.

(** *** Message ids *)

(** C4 (the code at its failing input).  On a view that was just
    cleared, two messages appended one after the other both get
    [message_id] 0: the second append happens with one entry in the
    view, and the ids 0, 0 do not increase.  [total_widgets] is
    [layout.count() - 1] taken after [remove_spacer()] has already taken
    the spacer out. *)
Theorem first_two_entries_share_message_id
    (n1 m1 n2 m2 : string) (b1 b2 : bool) (s : Widget) :
  layout s = [] ->
  strip_names_from_message (lstrip m1) (username (user s)) (botname (chatbot s)) <> "" ->
  strip_names_from_message (lstrip m2) (username (user s)) (botname (chatbot s)) <> "" ->
  let s1 := snd (add_message_to_conversation n1 m1 b1 true s) in
  let s2 := snd (add_message_to_conversation n2 m2 b2 true s1) in
  length (entries s1) = 1%nat /\ map message_id (entries s2) = [0; 0].
Proof.
  intros Hl H1 H2 s1 s2. subst s2 s1.
  unfold add_message_to_conversation, append_message, remove_spacer, add_spacer.
  destruct s as [tb g p h c ci ch cl sp d l up uc u cb a mlb lg].
  simpl in *. subst l.
  destruct sp as [sp|]; simpl;
    (destruct (decide _) as [|_]; [done|]); simpl;
    (destruct (decide _) as [|_]; [done|]); simpl;
    split; reflexivity.
Qed.

(** *** The token buffer *)

Lemma append_nil_r (m : string) : m +:+ "" = m.
Proof.
  induction m as [|a m IH]; [reflexivity|].
  change (String a (m +:+ "") = String a m). now rewrite IH.
Qed.

Lemma join_foldr (fragments : list string) :
  join fragments = foldr String.append "" fragments.
Proof.
  unfold join. induction fragments as [|f rest IH]; [reflexivity|].
  simpl. rewrite <- IH. destruct rest; [|reflexivity].
  simpl. symmetry. apply append_nil_r.
Qed.

Lemma on_add_bot_message_to_conversation_buffer (r : LLMResponse) (s : Widget) :
  node_id r = None ->
  token_buffer (widget_of (on_add_bot_message_to_conversation (Response r) s))
  = token_buffer s ++ [r_message r].
Proof.
  intros Hn. unfold on_add_bot_message_to_conversation. rewrite Hn. simpl.
  destruct (is_end_of_message r).
  - rewrite enable_generate_token_buffer. destruct (is_first_message r); reflexivity.
  - destruct (is_first_message r); reflexivity.
Qed.

Lemma run_stream_buffer (responses : list LLMResponse) (s : Widget) :
  Forall (fun r => node_id r = None) responses ->
  token_buffer (run (stream responses) s)
  = token_buffer s ++ map r_message responses.
Proof.
  intros Hall. revert s.
  induction Hall as [|r rest Hr _ IH]; intros s.
  - simpl. now rewrite app_nil_r.
  - change (run (stream (r :: rest)) s)
      with (run (stream rest)
              (widget_of (on_add_bot_message_to_conversation (Response r) s))).
    rewrite IH, on_add_bot_message_to_conversation_buffer by exact Hr.
    simpl. now rewrite <- app_assoc.
Qed.

Lemma flush_token_buffer_drained (s : Widget) :
  token_buffer s = [] -> flush_token_buffer s = s.
Proof.
  intros Hb. unfold flush_token_buffer. rewrite Hb. simpl.
  destruct s. simpl in *. now subst.
Qed.

(** C7.  Fragments [f1..fn] arrive on an empty token buffer, each in a
    message event of the stream; then the buffer holds them in arrival
    order, the flush works on their concatenation in that order and
    leaves the buffer empty, and a second flush right after it changes
    nothing: no view update, no call. *)
Theorem flush_concatenates_in_arrival_order
    (responses : list LLMResponse) (s : Widget) :
  token_buffer s = [] ->
  Forall (fun r => node_id r = None) responses ->
  let fragments := map r_message responses in
  let s1 := run (stream responses) s in
  token_buffer s1 = fragments /\
  flush_token_buffer s1
  = apply_combined_message (foldr String.append "" fragments)
      (set_token_buffer [] s1) /\
  token_buffer (flush_token_buffer s1) = [] /\
  flush_token_buffer (flush_token_buffer s1) = flush_token_buffer s1.
Proof.
  intros Hempty Hall fragments s1.
  assert (Hb : token_buffer s1 = fragments).
  { unfold s1. rewrite run_stream_buffer by exact Hall. now rewrite Hempty. }
  repeat split.
  - exact Hb.
  - unfold flush_token_buffer. now rewrite Hb, join_foldr.
  - apply flush_token_buffer_session.
  - apply flush_token_buffer_drained. apply flush_token_buffer_session.
Qed.

(** *** Deleting a conversation *)

Lemma layout_take_items (items : list LayoutItem) (s : Widget) :
  layout s = items -> layout (take_items items s) = [].
Proof.
  revert s. induction items as [|item rest IH]; intros s Hl; simpl.
  - exact Hl.
  - apply IH. destruct (item_widget item); reflexivity.
Qed.

Lemma layout__clear_conversation_widgets (skip_update : bool) (s : Widget) :
  layout (_clear_conversation_widgets skip_update s) = [].
Proof.
  unfold _clear_conversation_widgets.
  destruct skip_update; simpl; now apply layout_take_items.
Qed.

(** C8 (as amended).  [on_delete_conversation] with a conversation id in
    its data: if that id is the active one, or none is active, the view
    is cleared; otherwise layout, log and every other attribute stay as
    they are, except the active conversation.  In both cases the active
    conversation and its id are [None] afterwards. *)
Theorem on_delete_conversation_resets_conversation
    (deleted : option Z) (s : Widget) :
  let s' := widget_of
              (on_delete_conversation {| dd_conversation_id := Some deleted |} s) in
  (conversation_id s = deleted \/ conversation_id s = None ->
   layout s' = [] /\ entries s' = []) /\
  (~ (conversation_id s = deleted \/ conversation_id s = None) ->
   s' = set__conversation_id None (set__conversation None s)) /\
  conversation s' = None /\ conversation_id s' = None.
Proof.
  unfold on_delete_conversation.
  cbv beta zeta iota delta [widget_of dd_conversation_id].
  destruct (bool_decide (conversation_id s = deleted)
            || bool_decide (conversation_id s = None)) eqn:Hc.
  - apply orb_true_iff in Hc.
    rewrite !bool_decide_eq_true in Hc.
    repeat split; try tauto.
    + change (layout (_clear_conversation_widgets false s) = []).
      apply layout__clear_conversation_widgets.
    + change (messages_of (layout (_clear_conversation_widgets false s)) = []).
      now rewrite layout__clear_conversation_widgets.
  - apply orb_false_iff in Hc.
    rewrite !bool_decide_eq_false in Hc.
    repeat split; tauto.
Qed.

(** *** A message event without a response *)

(** C9.  Without a truthy ["response"] entry the call raises
    [ValueError] and the widget is as it was, token buffer and session
    included; with a response object the call returns. *)
Theorem on_add_bot_message_raises_without_response (s : Widget) :
  on_add_bot_message_to_conversation NoResponse s
  = Raised (ValueError "No LLMResponse object found in data") s /\
  on_add_bot_message_to_conversation FalsyResponse s
  = Raised (ValueError "No LLMResponse object found in data") s /\
  forall r, exists s',
    on_add_bot_message_to_conversation (Response r) s = Returned s'.
Proof.
  repeat split. intros r. unfold on_add_bot_message_to_conversation.
  destruct (node_id r); eexists; reflexivity.
Qed.

(** *** The history list *)

(** C10.  No call of the widget appends to [conversation_history]: a call
    leaves the list as it is or resets it to the empty list.  So the
    list is empty in every reachable state, the guard of
    [flush_token_buffer] lets every non-empty text through, and the
    flush calls [add_message_to_conversation] with it. *)
Theorem conversation_history_stays_empty (s : Widget) :
  reachable s ->
  conversation_history s = [] /\
  (forall o, conversation_history (widget_of (step o s)) = []) /\
  (join (token_buffer s) <> "" ->
   flush_token_buffer s
   = snd (add_message_to_conversation (botname (chatbot s))
            (join (token_buffer s)) true false (set_token_buffer [] s))).
Proof.
  intros Hr. pose proof (reachable_conversation_history s Hr) as Hh.
  repeat split.
  - exact Hh.
  - intros o. destruct (step_conversation_history o s) as [->| ->]; done.
  - intros Hne. unfold flush_token_buffer, apply_combined_message.
    destruct (decide _) as [|_]; [done|].
    simpl. rewrite Hh. reflexivity.
Qed.

(** *** Reaching a state by a list of calls *)

Lemma reachable_by_run (allowed : op -> Prop) (ops : list op) (s : Widget) :
  reachable_by allowed s -> Forall allowed ops -> reachable_by allowed (run ops s).
Proof.
  intros Hr Hall. revert s Hr.
  induction Hall as [|o rest Ho _ IH]; intros s Hr; [exact Hr|].
  apply (IH (widget_of (step o s))). now apply reach_step.
Qed.

Lemma initial_fresh_widget : initial fresh_widget.
Proof. unfold initial, fresh_widget. now eexists _, _, _, _, _, _, _. Qed.

Lemma reachable_run_fresh (ops : list op) : reachable (run ops fresh_widget).
Proof.
  apply reachable_by_run.
  - apply reach_initial, initial_fresh_widget.
  - apply Forall_forall. done.
Qed.

(** ** Further properties of the widget *)

(** *** The outbound calls of [do_generate], in order *)

Lemma call_names_emit (e : effect) (s : Widget) :
  call_names (emit e s) = call_names s ++ [e].
Proof. unfold call_names, emit. simpl. now rewrite map_app. Qed.

Lemma call_names_remove_spacer (s : Widget) :
  call_names (remove_spacer s) = call_names s.
Proof. unfold remove_spacer. now destruct (spacer s). Qed.

Lemma call_names_add_spacer (s : Widget) :
  call_names (add_spacer s) = call_names s.
Proof. unfold add_spacer. now destruct (spacer s). Qed.

Lemma call_names_append_message (n m : string) (b : bool) (s : Widget) :
  call_names (snd (append_message n m b s))
  = call_names s ++ (if decide (m = "") then [] else [SingleShot 0 ScrollToBottom]).
Proof.
  unfold append_message.
  destruct (decide (m = "")); simpl.
  - now rewrite call_names_add_spacer, call_names_remove_spacer, app_nil_r.
  - rewrite call_names_add_spacer. unfold singleShot.
    rewrite call_names_emit. f_equal. apply call_names_remove_spacer.
Qed.

Lemma call_names_unload_art_model (s : Widget) :
  call_names (unload_art_model s)
  = call_names s ++ (if art_model_in_the_way s then [SwitchToNonArtMode] else []).
Proof.
  unfold unload_art_model, art_model_in_the_way.
  destruct (model_load_balancer s) as [loaded|]; [|now rewrite app_nil_r].
  destruct (_ && _); [|now rewrite app_nil_r].
  apply (call_names_emit SwitchToNonArtMode s).
Qed.

Lemma call_names_interrupt_button_clicked (s : Widget) :
  call_names (interrupt_button_clicked s)
  = call_names s ++ [Interrupt; ProgressBarStop; SendButtonEnable].
Proof.
  unfold interrupt_button_clicked, enable_send_button, stop_progress_bar.
  unfold call_names. simpl. rewrite !map_app. simpl.
  now rewrite <- !app_assoc.
Qed.

(** The sending branch of [do_generate], written out. *)
Lemma do_generate_idle (o : option string) (s : Widget) :
  effective_prompt o s <> "" -> generating s = false ->
  do_generate o s
  = let s0 := set_generating true (unload_art_model s) in
    let r := append_message (username (user s))
               (strip_names_from_message (lstrip (prompt s))
                  (username (user s)) (botname (chatbot s))) false s0 in
    let s1 := match r.1 with
              | Some w => singleShot 100 ScrollToBottom
                            (singleShot 100 (SetContentSize w) r.2)
              | None => r.2
              end in
    emit (SendRequest (effective_prompt o s) (llm_action s) false)
      (start_progress_bar (clear_prompt s1)).
Proof.
  intros Hp Hg. unfold do_generate.
  destruct (decide (effective_prompt o s = "")) as [|_]; [done|].
  destruct (same_core_unload_art_model s)
    as (_ & Hg' & Hpr & _ & _ & _ & _ & _ & _ & _ & _ & Hu & Hc & Ha & _).
  rewrite Hg', Hg. unfold add_message_to_conversation.
  cbn [user chatbot prompt set_generating]. rewrite Hu, Hc, Hpr.
  cbv zeta.
  set (r := append_message _ _ false _).
  pose proof (same_core_append_message (username (user s))
                (strip_names_from_message (lstrip (prompt s))
                   (username (user s)) (botname (chatbot s)))
                false (set_generating true (unload_art_model s))) as Hr.
  fold r in Hr. destruct r as [[w|] s1]; simpl in *.
  - destruct Hr as (_&_&_&_&_&_&_&_&_&_&_&_&_& -> &_). simpl. now rewrite Ha.
  - destruct Hr as (_&_&_&_&_&_&_&_&_&_&_&_&_& -> &_). simpl. now rewrite Ha.
Qed.

(** X1.  The calls a [do_generate] makes, in order.  An empty prompt: the
    warning, nothing else.  Otherwise first the switch away from the art
    model, if one is in the way; then, while generating, the interrupt
    with the progress bar stopped and the send button enabled when nothing
    is held yet, and no call when a prompt is held; and when idle, timer
    callbacks only, the progress bar started, and the request sent. *)
Theorem do_generate_calls (o : option string) (s : Widget) :
  let switch := if art_model_in_the_way s then [SwitchToNonArtMode] else [] in
  exists timers,
    Forall is_timer timers /\
    call_names (do_generate o s)
    = call_names s ++
      (if decide (effective_prompt o s = "") then [LogWarning "Prompt is empty"]
       else switch ++
            (if generating s
             then match held_message s with
                  | None => [Interrupt; ProgressBarStop; SendButtonEnable]
                  | Some _ => []
                  end
             else timers ++
                  [ProgressBarStart;
                   SendRequest (effective_prompt o s) (llm_action s) false])).
Proof.
  intros switch.
  destruct (decide (effective_prompt o s = "")) as [Hp|Hp].
  { exists []. split; [constructor|].
    rewrite (do_generate_empty o s Hp). apply call_names_emit. }
  destruct (generating s) eqn:Hg.
  - exists []. split; [constructor|].
    destruct (held_message s) as [h|] eqn:Hh.
    + rewrite (do_generate_held o s h Hp Hg Hh), call_names_unload_art_model.
      now rewrite app_nil_r.
    + rewrite (do_generate_hold o s Hp Hg Hh), call_names_interrupt_button_clicked.
      change (call_names (set_held_message _ (unload_art_model s)))
        with (call_names (unload_art_model s)).
      now rewrite call_names_unload_art_model, <- app_assoc.
  - rewrite (do_generate_idle o s Hp Hg). cbv zeta.
    set (m := strip_names_from_message (lstrip (prompt s))
                (username (user s)) (botname (chatbot s))).
    set (scroll := if decide (m = "") then [] else [SingleShot 0 ScrollToBottom]).
    assert (Hscroll : Forall is_timer scroll).
    { subst scroll. destruct (decide (m = ""));
        repeat (constructor; [now eexists _, _|]); try constructor. }
    set (r := append_message _ m false _).
    pose proof (call_names_append_message (username (user s)) m
                  false (set_generating true (unload_art_model s))) as Hr.
    fold r scroll in Hr.
    change (call_names (set_generating true (unload_art_model s)))
      with (call_names (unload_art_model s)) in Hr.
    rewrite call_names_unload_art_model in Hr. fold switch in Hr.
    clearbody scroll. destruct r as [[w|] s1]; simpl in Hr |- *.
    + exists (scroll ++ [SingleShot 100 (SetContentSize w);
                         SingleShot 100 ScrollToBottom]).
      split.
      * apply Forall_app. split; [exact Hscroll|].
        repeat (constructor; [now eexists _, _|]); try constructor.
      * unfold start_progress_bar, clear_prompt, singleShot.
        rewrite !call_names_emit.
        change (call_names (set_ui_prompt "" ?x)) with (call_names x).
        rewrite !call_names_emit, Hr. now rewrite <- !app_assoc.
    + exists scroll. split; [exact Hscroll|].
      unfold start_progress_bar, clear_prompt.
      rewrite !call_names_emit.
      change (call_names (set_ui_prompt "" s1)) with (call_names s1).
      rewrite Hr. now rewrite <- !app_assoc.
Qed.

(** *** What a single call can and cannot do *)

Lemma do_generate_frame (o : option string) (s : Widget) :
  _conversation (do_generate o s) = _conversation s /\
  _conversation_id (do_generate o s) = _conversation_id s /\
  (_disabled (do_generate o s) = _disabled s \/ _disabled (do_generate o s) = false).
Proof.
  destruct (same_core_unload_art_model s)
    as (_ & _ & _ & _ & Hc & Hi & _ & _ & Hd & _).
  destruct (do_generate_cases o s)
    as [(Hp & ->)|[(Hp & Hg & Hh & ->)|[(Hp & Hg & Hh & ->)|(Hp & Hg & s1 & Hs1 & ->)]]].
  - repeat split. now left.
  - simpl. repeat split; try done. now right.
  - repeat split; try done. now left.
  - destruct Hs1 as (_ & _ & _ & _ & Hc1 & Hi1 & _ & _ & Hd1 & _).
    simpl in *. repeat split; try done. now left.
Qed.

Lemma enable_generate_frame (s : Widget) :
  _conversation (enable_generate s) = _conversation s /\
  _conversation_id (enable_generate s) = _conversation_id s /\
  _disabled (enable_generate s) = false.
Proof.
  unfold enable_generate. simpl.
  destruct (held_message s) as [h|]; simpl; [|done].
  destruct (do_generate_frame (Some h) (set_generating false s)) as (-> & -> & _).
  done.
Qed.

Lemma on_add_bot_message_to_conversation_frame (data : ResponseEntry) (s : Widget) :
  let s' := widget_of (on_add_bot_message_to_conversation data s) in
  _conversation s' = _conversation s /\
  _conversation_id s' = _conversation_id s /\
  (_disabled s' = _disabled s \/ _disabled s' = false) /\
  token_buffer s `prefix_of` token_buffer s'.
Proof.
  unfold on_add_bot_message_to_conversation.
  destruct data as [| |r]; simpl; try (repeat split; now try left).
  destruct (node_id r); simpl; [repeat split; now try left|].
  destruct (is_end_of_message r).
  - rewrite enable_generate_token_buffer.
    destruct (enable_generate_frame
                (if is_first_message r
                 then stop_progress_bar
                        (set_token_buffer (token_buffer s ++ [r_message r]) s)
                 else set_token_buffer (token_buffer s ++ [r_message r]) s))
      as (-> & -> & ->).
    destruct (is_first_message r); simpl; repeat split;
      try (now right); now apply prefix_app_r.
  - destruct (is_first_message r); simpl; repeat split;
      try (now left); now apply prefix_app_r.
Qed.

Lemma step_frame (o : op) (s : Widget) :
  let s' := widget_of (step o s) in
  (_disabled s = false -> _disabled s' = false) /\
  (o = FlushTokenBuffer \/ token_buffer s `prefix_of` token_buffer s') /\
  ((exists data, o = OnLoadConversation data)
   \/ (exists data, o = OnDeleteConversation data)
   \/ (_conversation s' = _conversation s /\
       _conversation_id s' = _conversation_id s)).
Proof.
  assert (Hcore : forall s1, same_core s s1 ->
            (_disabled s = false -> _disabled s1 = false) /\
            (o = FlushTokenBuffer \/ token_buffer s `prefix_of` token_buffer s1) /\
            ((exists data, o = OnLoadConversation data)
             \/ (exists data, o = OnDeleteConversation data)
             \/ (_conversation s1 = _conversation s /\
                 _conversation_id s1 = _conversation_id s))).
  { intros s1 (Ht & _ & _ & _ & Hc & Hi & _ & _ & Hd & _).
    rewrite Ht, Hc, Hi, Hd. repeat split; try done.
    - now right.
    - right. right. done. }
  assert (Hgen : forall ov s0,
            token_buffer s0 = token_buffer s /\ _conversation s0 = _conversation s /\
            _conversation_id s0 = _conversation_id s /\ _disabled s0 = _disabled s ->
            (_disabled s = false -> _disabled (do_generate ov s0) = false) /\
            (o = FlushTokenBuffer
             \/ token_buffer s `prefix_of` token_buffer (do_generate ov s0)) /\
            ((exists data, o = OnLoadConversation data)
             \/ (exists data, o = OnDeleteConversation data)
             \/ (_conversation (do_generate ov s0) = _conversation s /\
                 _conversation_id (do_generate ov s0) = _conversation_id s))).
  { intros ov s0 (Ht & Hc & Hi & Hd).
    destruct (do_generate_frame ov s0) as (-> & -> & Hd').
    rewrite do_generate_token_buffer, Ht, Hc, Hi.
    repeat split.
    - intros H0. destruct Hd' as [->| ->]; [now rewrite Hd | done].
    - now right.
    - right. right. done. }
  destruct o; cbv beta zeta iota delta [step]; cbn [widget_of].
  - destruct (on_load_conversation_session data s) as (_ & _ & -> & _).
    repeat split.
    + unfold on_load_conversation. intros H0.
      destruct (ld_conversation_id data) as [cid|].
      * unfold singleShot, _set_conversation_widgets. cbn [_disabled emit set_log].
        set (s0 := emit (ClearHistory (Some cid)) (conversation_id_setter (Some cid) s)).
        pose proof (same_core_trans _ _ _ (_clear_conversation_core true s0)
                      (same_core__set_conversation_widgets_loop
                         (default [] (ld_messages data))
                         (_clear_conversation true s0))) as Hc.
        destruct Hc as (_&_&_&_&_&_&_&_& -> &_).
        subst s0. unfold conversation_id_setter. simpl.
        destruct (decide (cid = 0)); exact H0.
      * unfold singleShot, conversation_setter. cbn [_disabled emit set_log
          set__conversation set__conversation_id].
        destruct (_clear_conversation_core true s) as (_&_&_&_&_&_&_&_& -> &_).
        exact H0.
    + now right.
    + left. now exists data.
  - destruct (on_delete_conversation_session data s) as (_ & _ & Ht & _).
    cbv zeta in Ht. rewrite Ht.
    repeat split.
    + unfold on_delete_conversation. intros H0.
      destruct (dd_conversation_id data); simpl; [|exact H0].
      destruct (_ || _); [|exact H0].
      destruct (same_core__clear_conversation_widgets false s)
        as (_&_&_&_&_&_&_&_& Hd &_).
      etransitivity; [exact Hd | exact H0].
    + now right.
    + right. left. now exists data.
  - apply Hcore. apply same_core_emit. discriminate.
  - apply Hcore. apply same_core_emit. discriminate.
  - unfold on_token_signal, handle_token_signal.
    destruct (decide _); simpl; repeat split; try done;
      try (now right); right; right; done.
  - unfold on_model_status_changed_signal.
    destruct (decide _); simpl; case_ifs; simpl; repeat split; try done;
      try (now right); right; right; done.
  - unfold on_chatbot_changed.
    destruct (_clear_conversation_core false (emit (ClearHistory None) s))
      as (Ht & _ & _ & _ & Hc & Hi & _ & _ & Hd & _).
    rewrite Ht, Hc, Hi, Hd. simpl. repeat split; try done.
    + now right.
    + right. right. done.
  - unfold on_hear_signal. apply Hgen. repeat split.
  - destruct (on_add_bot_message_to_conversation_frame data s) as (Hc & Hi & Hd & Ht).
    cbv zeta in *. repeat split.
    + intros H0. destruct Hd as [->| ->]; done.
    + now right.
    + right. right. done.
  - repeat split.
    + destruct (apply_combined_message_core (join (token_buffer s))
                  (set_token_buffer [] s)) as (_&_&_&_&_&_&_&_& Hd &_).
      unfold flush_token_buffer. now rewrite Hd.
    + now left.
    + right. right.
      destruct (apply_combined_message_core (join (token_buffer s))
                  (set_token_buffer [] s)) as (_&_&_&_& Hc & Hi &_).
      unfold flush_token_buffer. now rewrite Hc, Hi.
  - destruct (enable_generate_frame s) as (-> & -> & ->).
    rewrite enable_generate_token_buffer. repeat split; try done.
    + now right.
    + right. right. done.
  - apply Hcore. apply same_core_emit. discriminate.
  - unfold on_clear_conversation.
    destruct (_clear_conversation_core false s)
      as (Ht & _ & _ & _ & Hc & Hi & _ & _ & Hd & _).
    rewrite Ht, Hc, Hi, Hd. simpl. repeat split; try done.
    + now right.
    + right. right. done.
  - apply Hgen. repeat split.
  - unfold interrupt_button_clicked. simpl. repeat split; try done.
    + now right.
    + right. right. done.
  - apply Hgen. repeat split.
  - simpl. repeat split; try done; [now right | right; right; done].
  - simpl. repeat split; try done; [now right | right; right; done].
  - simpl. repeat split; try done; [now right | right; right; done].
  - apply Hcore. apply same_core_emit. discriminate.
  - apply Hcore. apply same_core_emit. discriminate.
  - apply Hcore. apply same_core_refl.
  - simpl. repeat split; try done; [now right | right; right; done].
  - apply Hcore. apply same_core_add_message_to_conversation.
  - simpl. repeat split; try done; [now right | right; right; done].
  - simpl. repeat split; try done; [now right | right; right; done].
Qed.

(** X2.  Only a flush takes fragments out of the token buffer: after any
    other call the buffer still starts with what it held before. *)
Theorem token_buffer_only_emptied_by_flush (o : op) (s : Widget) :
  o <> FlushTokenBuffer ->
  token_buffer s `prefix_of` token_buffer (widget_of (step o s)).
Proof.
  intros Ho. destruct (step_frame o s) as (_ & [H|H] & _); done.
Qed.

Lemma reachable__disabled (s : Widget) : reachable s -> _disabled s = false.
Proof.
  intros Hr. induction Hr as [s (l & p & c & u & b & a & m & ->)|o s Hr IH _].
  - reflexivity.
  - now apply (step_frame o s).
Qed.

(** X3.  [disable_send_button] does nothing, so [_disabled] is false in
    every reachable state and stays false after every call. *)
Theorem send_button_never_disabled (s : Widget) :
  reachable s ->
  _disabled s = false /\ forall o, _disabled (widget_of (step o s)) = false.
Proof.
  intros Hr. pose proof (reachable__disabled s Hr) as H0.
  split; [exact H0|]. intros o. now apply (step_frame o s).
Qed.

(** *** The active conversation *)

Lemma on_load_conversation_active (data : LoadData) (s : Widget) :
  _conversation_id (on_load_conversation data s) = ld_conversation_id data /\
  _conversation (on_load_conversation data s)
  = match ld_conversation_id data with
    | Some cid => if decide (cid = 0) then None else filter_by_first cid
    | None => None
    end.
Proof.
  unfold on_load_conversation, singleShot.
  destruct (ld_conversation_id data) as [cid|].
  - unfold _set_conversation_widgets.
    set (s0 := emit (ClearHistory (Some cid)) (conversation_id_setter (Some cid) s)).
    pose proof (same_core_trans _ _ _ (_clear_conversation_core true s0)
                  (same_core__set_conversation_widgets_loop
                     (default [] (ld_messages data))
                     (_clear_conversation true s0))) as Hc.
    destruct Hc as (_ & _ & _ & _ & Hc & Hi & _).
    cbn [_conversation _conversation_id emit set_log]. rewrite Hc, Hi.
    subst s0. unfold conversation_id_setter. simpl.
    destruct (decide (cid = 0)); done.
  - done.
Qed.

Lemma on_delete_conversation_active (deleted : option Z) (s : Widget) :
  let s' := widget_of
              (on_delete_conversation {| dd_conversation_id := Some deleted |} s) in
  _conversation_id s' = None /\ _conversation s' = None.
Proof. unfold on_delete_conversation. simpl. done. Qed.

(** X4.  What [on_load_conversation] makes the active conversation: the
    id of its data, and the conversation found under that id; but for
    the id 0, which the setter takes for "no id", no conversation is
    looked up although the id is kept. *)
Theorem on_load_conversation_sets_active (data : LoadData) (s : Widget) (cid : Z) :
  ld_conversation_id data = Some cid ->
  conversation_id (on_load_conversation data s) = Some cid /\
  conversation (on_load_conversation data s)
  = (if decide (cid = 0) then None else filter_by_first cid).
Proof.
  intros Hid. destruct (on_load_conversation_active data s) as (Hi & Hc).
  unfold conversation_id, conversation. rewrite Hi, Hc, Hid. done.
Qed.

(** X5.  In every reachable state the conversation and its id agree: no
    conversation without an id, and, the lookup returning conversations
    under their own id, the id is the one of the conversation. *)
Theorem conversation_matches_its_id (s : Widget) :
  (forall z c, filter_by_first z = Some c -> conv_id c = z) ->
  reachable s ->
  (conversation_id s = None -> conversation s = None) /\
  (forall c, conversation s = Some c -> conversation_id s = Some (conv_id c)).
Proof.
  intros Hlookup Hr. unfold conversation_id, conversation.
  induction Hr as [s (l & p & c & u & b & a & m & ->)|o s Hr IH _].
  - done.
  - destruct (step_frame o s) as (_ & _ & [(data & ->)|[(data & ->)|(-> & ->)]]).
    + cbn [step widget_of].
      destruct (on_load_conversation_active data s) as (-> & ->).
      destruct (ld_conversation_id data) as [cid|]; [|done].
      split; [done|]. intros c. destruct (decide (cid = 0)); [done|].
      intros Hc. now rewrite (Hlookup _ _ Hc).
    + cbn [step]. destruct data as [[deleted|]].
      * destruct (on_delete_conversation_active deleted s) as (-> & ->). done.
      * exact IH.
    + exact IH.
Qed.

(** *** Clearing the view *)

Lemma call_names_take_items (items : list LayoutItem) (s : Widget) :
  call_names (take_items items s)
  = call_names s
    ++ replicate (length (List.filter item_widget items)) DeleteLater.
Proof.
  revert s. induction items as [|item rest IH]; intros s; simpl.
  - now rewrite app_nil_r.
  - rewrite IH. destruct (item_widget item); simpl.
    + rewrite call_names_emit. now rewrite <- app_assoc.
    + reflexivity.
Qed.

Lemma spacer_take_items (items : list LayoutItem) (s : Widget) :
  spacer (take_items items s) = spacer s.
Proof.
  revert s. induction items as [|item rest IH]; intros s; simpl; [done|].
  rewrite IH. now destruct (item_widget item).
Qed.

(** X6.  [_clear_conversation_widgets] empties the layout, schedules the
    deletion of each widget in it once and of nothing else, updates the
    layout unless told to skip that, and keeps [self.spacer], so that a
    later append puts the same spacer back. *)
Theorem _clear_conversation_widgets_deletes_each_widget
    (skip_update : bool) (s : Widget) :
  let s' := _clear_conversation_widgets skip_update s in
  layout s' = [] /\
  spacer s' = spacer s /\
  call_names s'
  = call_names s
    ++ replicate (length (List.filter item_widget (layout s))) DeleteLater
    ++ (if skip_update then [] else [LayoutUpdate]).
Proof.
  repeat split.
  - apply layout__clear_conversation_widgets.
  - unfold _clear_conversation_widgets.
    destruct skip_update; simpl; apply spacer_take_items.
  - unfold _clear_conversation_widgets. destruct skip_update.
    + now rewrite call_names_take_items, app_nil_r.
    + now rewrite call_names_emit, call_names_take_items, <- app_assoc.
Qed.

(** *** New entries *)

Lemma append_message_meta (n m : string) (b : bool) (s : Widget) :
  m <> "" ->
  exists w,
    (append_message n m b s).1 = Some w /\
    entries (append_message n m b s).2 = entries s ++ [w] /\
    shown w = (n, m, b) /\
    mw_conversation_id w = conversation_id s /\
    mood w = (if b then bot_mood (chatbot s) else None) /\
    mood_emoji w = (if b then bot_mood_emoji (chatbot s) else None).
Proof.
  intros Hm. unfold append_message.
  destruct (decide (m = "")) as [|_]; [done|].
  eexists. split; [reflexivity|]. simpl. split.
  - rewrite entries_add_spacer. unfold entries. simpl.
    rewrite messages_of_app. simpl. f_equal. apply entries_remove_spacer.
  - unfold remove_spacer, conversation_id.
    destruct (spacer s), b; simpl; done.
Qed.

(** X7.  A whole message ([first_message] true) whose left-stripped and
    filtered text is not empty becomes a new last entry of the view,
    whatever the view holds: it carries the given name, the
    left-stripped and filtered text and the bot flag, the id of the
    active conversation, and the chatbot's mood and mood emoji only if
    it is a bot message. *)
Theorem add_message_whole_appends_entry (n text : string) (b : bool) (s : Widget) :
  let m := strip_names_from_message (lstrip text)
             (username (user s)) (botname (chatbot s)) in
  let r := add_message_to_conversation n text b true s in
  m <> "" ->
  exists w,
    r.1 = Some w /\
    entries r.2 = entries s ++ [w] /\
    shown w = (n, m, b) /\
    mw_conversation_id w = conversation_id s /\
    mood w = (if b then bot_mood (chatbot s) else None) /\
    mood_emoji w = (if b then bot_mood_emoji (chatbot s) else None).
Proof.
  intros m r Hm. subst r.
  rewrite add_message_append by now left.
  now apply append_message_meta.
Qed.

(** X8.  Text that the name filter leaves empty adds no entry and
    schedules no scroll, on the update path and on the append path
    alike, and no widget is returned. *)
Theorem add_message_empty_text_adds_nothing
    (n text : string) (b first_message : bool) (s : Widget) :
  let r := add_message_to_conversation n text b first_message s in
  strip_names_from_message (if first_message then lstrip text else text)
    (username (user s)) (botname (chatbot s)) = "" ->
  r.1 = None /\ entries r.2 = entries s /\ call_names r.2 = call_names s.
Proof.
  intros r Hm. subst r. unfold add_message_to_conversation. rewrite Hm.
  assert (Happ : (append_message n "" b s).1 = None /\
                 entries (append_message n "" b s).2 = entries s /\
                 call_names (append_message n "" b s).2 = call_names s).
  { repeat split.
    - apply entries_append_message_nothing.
    - rewrite call_names_append_message. simpl. apply app_nil_r. }
  destruct (if first_message then None else last_message (layout s))
    as [[i [wn wm [] wid wc wmo wme]]|]; try exact Happ.
  simpl. done.
Qed.

(** *** Loading a conversation *)

Lemma omap_rendered_ext (s s' : Widget) (messages : list MessageDict) :
  user s' = user s -> chatbot s' = chatbot s ->
  omap (rendered s') messages = omap (rendered s) messages.
Proof.
  intros Hu Hc. induction messages as [|m rest IH]; [done|].
  cbn [omap list_omap]. rewrite IH. unfold rendered. now rewrite Hu, Hc.
Qed.

Lemma _set_conversation_widgets_loop_entries
    (messages : list MessageDict) (s : Widget) :
  exists news,
    entries (_set_conversation_widgets_loop messages s) = entries s ++ news /\
    map shown news = omap (rendered s) messages /\
    Forall (fun w => mw_conversation_id w = conversation_id s) news.
Proof.
  revert s. induction messages as [|m rest IH]; intros s.
  - exists []. simpl. now rewrite app_nil_r.
  - cbn [_set_conversation_widgets_loop].
    set (s1 := (add_message_to_conversation (m_name m) (m_content m)
                  (m_is_bot m) true s).2).
    pose proof (same_core_add_message_to_conversation (m_name m) (m_content m)
                  (m_is_bot m) true s) as Hc. fold s1 in Hc.
    destruct (IH s1) as (news & He & Hs & Hi).
    assert (Hid : conversation_id s1 = conversation_id s).
    { unfold conversation_id. apply Hc. }
    assert (Hrest : omap (rendered s1) rest = omap (rendered s) rest).
    { apply omap_rendered_ext; apply Hc. }
    rewrite Hrest in Hs. rewrite Hid in Hi.
    cbn [omap list_omap]. unfold rendered at 1.
    destruct (decide (strip_names_from_message (lstrip (m_content m))
                        (username (user s)) (botname (chatbot s)) = ""))
      as [Hm|Hm].
    + exists news. split; [|done].
      rewrite He. f_equal. unfold s1. rewrite add_message_append by now left.
      rewrite Hm. apply entries_append_message_nothing.
    + destruct (append_message_meta (m_name m) _ (m_is_bot m) s Hm)
        as (w & _ & Hw & Hshown & Hwid & _).
      exists (w :: news). split; [|split].
      * rewrite He. unfold s1. rewrite add_message_append by now left.
        rewrite Hw. now rewrite <- app_assoc.
      * simpl. now rewrite Hshown, Hs.
      * now constructor.
Qed.

Lemma entries__clear_conversation (skip_update : bool) (s : Widget) :
  entries (_clear_conversation skip_update s) = [].
Proof.
  unfold entries, _clear_conversation.
  now rewrite layout__clear_conversation_widgets.
Qed.

(** X9.  [on_load_conversation] with a conversation id replaces the
    view by the messages of its data: one entry for each message whose
    filtered content is not empty, in the order given, with its name,
    content and bot flag, none merged with its neighbour, each under the
    loaded conversation id; what the view held before is gone, and
    [conversation_history] is empty. *)
Theorem on_load_conversation_renders_messages
    (data : LoadData) (s : Widget) (cid : Z) :
  ld_conversation_id data = Some cid ->
  let s' := on_load_conversation data s in
  map shown (entries s') = omap (rendered s) (default [] (ld_messages data)) /\
  Forall (fun w => mw_conversation_id w = Some cid) (entries s') /\
  conversation_history s' = [].
Proof.
  intros Hid s'. split; [|split]; [| |apply on_load_conversation_session].
  all: set (s0 := emit (ClearHistory (Some cid))
                    (conversation_id_setter (Some cid) s));
    assert (Hs0 : user s0 = user s /\ chatbot s0 = chatbot s /\
                  conversation_id s0 = Some cid)
      by (subst s0; unfold conversation_id_setter, conversation_id;
          destruct (decide (cid = 0)); repeat split);
    destruct Hs0 as (Hu & Hc & Hcid);
    pose proof (_clear_conversation_core true s0) as Hclear;
    assert (He : entries s'
                 = entries (_set_conversation_widgets_loop
                              (default [] (ld_messages data))
                              (_clear_conversation true s0)))
      by (subst s' s0; unfold on_load_conversation; now rewrite Hid);
    destruct (_set_conversation_widgets_loop_entries
                (default [] (ld_messages data)) (_clear_conversation true s0))
      as (news & Hn & Hs & Hi);
    rewrite entries__clear_conversation in Hn;
    rewrite He, Hn; clearbody s0; cbn [app];
    destruct Hclear as (_&_&_&_&_& Hi0 &_&_&_&_&_& Hu0 & Hc0 &_);
    cbn [user chatbot _conversation_id set_conversation_history] in Hi0, Hu0, Hc0.
  - rewrite Hs. apply omap_rendered_ext; congruence.
  - eapply Forall_impl; [exact Hi|]. intros w ->.
    unfold conversation_id in *. now rewrite Hi0.
Qed.

(** X10.  [on_load_conversation] without a conversation id shows
    nothing: the view is emptied and the messages of the data are not
    rendered, no conversation is active afterwards, and the only calls
    made are the deletion of the widgets and the scroll timer: the api
    is not asked to clear its history. *)
Theorem on_load_conversation_without_id (data : LoadData) (s : Widget) :
  ld_conversation_id data = None ->
  let s' := on_load_conversation data s in
  layout s' = [] /\
  conversation s' = None /\ conversation_id s' = None /\
  conversation_history s' = [] /\
  call_names s'
  = call_names s
    ++ replicate (length (List.filter item_widget (layout s))) DeleteLater
    ++ [SingleShot 100 ScrollToBottom].
Proof.
  intros Hid s'. subst s'.
  destruct (on_load_conversation_active data s) as (Hi & Hc).
  rewrite Hid in Hi, Hc. unfold conversation, conversation_id.
  split; [|split; [exact Hc|split; [exact Hi|split]]].
  - unfold on_load_conversation. rewrite Hid.
    change (layout (_clear_conversation true s) = []).
    apply layout__clear_conversation_widgets.
  - apply on_load_conversation_session.
  - unfold on_load_conversation, singleShot. rewrite Hid.
    rewrite call_names_emit.
    change (call_names (conversation_setter None ?x)) with (call_names x).
    unfold _clear_conversation, _clear_conversation_widgets.
    rewrite call_names_take_items. simpl. now rewrite <- app_assoc.
Qed.

(** *** The spacer *)

Lemma spacer_count_app (l1 l2 : list LayoutItem) :
  spacer_count (l1 ++ l2) = (spacer_count l1 + spacer_count l2)%nat.
Proof. unfold spacer_count. now rewrite List.filter_app, length_app. Qed.

Lemma spacer_count_removeItem_spacer (l : list LayoutItem) :
  spacer_count (removeItem_spacer l) = Nat.pred (spacer_count l).
Proof.
  induction l as [|item rest IH]; [done|].
  destruct item as [w| |b]; unfold spacer_count in *; simpl; try done.
Qed.

Lemma spacer_ok_same_view (s s' : Widget) :
  layout s' = layout s -> spacer s' = spacer s -> spacer_ok s -> spacer_ok s'.
Proof. unfold spacer_ok. now intros -> ->. Qed.

Lemma spacer_count_remove_spacer (s : Widget) :
  spacer_ok s -> spacer_count (layout (remove_spacer s)) = 0%nat.
Proof.
  intros (Hle & Hnone). unfold remove_spacer.
  destruct (spacer s) as [sp|]; [|now apply Hnone].
  simpl. rewrite spacer_count_removeItem_spacer. lia.
Qed.

Lemma spacer_ok_append_message (n m : string) (b : bool) (s : Widget) :
  spacer_ok s -> spacer_ok (append_message n m b s).2.
Proof.
  intros Hok. pose proof (spacer_count_remove_spacer s Hok) as H0.
  unfold append_message.
  set (s1 := remove_spacer s) in *. clearbody s1.
  assert (Hadd : forall s2, spacer_count (layout s2) = 0%nat ->
                   spacer_ok (add_spacer s2)).
  { intros s2 H2. unfold add_spacer, spacer_ok.
    destruct (spacer s2) eqn:Hsp; simpl; rewrite spacer_count_app, H2;
      unfold spacer_count; simpl; (split; [lia|]); intros Hn; congruence. }
  destruct (decide (m = "")); simpl; apply Hadd; [exact H0|].
  simpl. now rewrite spacer_count_app, H0.
Qed.

Lemma spacer_count_insert_message (l : list LayoutItem) (i : nat)
    (w w' : MessageWidget) :
  last_message l = Some (i, w) ->
  spacer_count (<[i := ItemMessage w']> l) = spacer_count l.
Proof.
  intros Hfound.
  destruct (last_message_Some _ _ _ Hfound) as (l1 & l2 & -> & <- & _).
  rewrite insert_app_r_alt by lia.
  replace (length l1 - length l1)%nat with O by lia. simpl.
  now rewrite !spacer_count_app.
Qed.

Lemma spacer_ok_add_message_to_conversation
    (n text : string) (b first_message : bool) (s : Widget) :
  spacer_ok s ->
  spacer_ok (add_message_to_conversation n text b first_message s).2.
Proof.
  intros Hok. unfold add_message_to_conversation.
  destruct (if first_message then None else last_message (layout s))
    as [[i w]|] eqn:Hfound; [|now apply spacer_ok_append_message].
  destruct first_message; [discriminate|].
  destruct w as [wn wm [] wid wc wmo wme]; [|now apply spacer_ok_append_message].
  destruct (decide _); [exact Hok|].
  simpl. destruct Hok as (Hle & Hnone). unfold spacer_ok. simpl.
  now rewrite (spacer_count_insert_message _ _ _ _ Hfound).
Qed.

Lemma spacer_ok__clear_conversation_widgets (skip_update : bool) (s : Widget) :
  spacer_ok (_clear_conversation_widgets skip_update s).
Proof.
  unfold spacer_ok. rewrite layout__clear_conversation_widgets.
  unfold spacer_count. simpl. split; [lia | done].
Qed.

Lemma spacer_ok__set_conversation_widgets_loop
    (messages : list MessageDict) (s : Widget) :
  spacer_ok s -> spacer_ok (_set_conversation_widgets_loop messages s).
Proof.
  revert s. induction messages as [|m rest IH]; intros s Hok; [exact Hok|].
  simpl. apply IH. now apply spacer_ok_add_message_to_conversation.
Qed.

Lemma view_unload_art_model (s : Widget) :
  layout (unload_art_model s) = layout s /\ spacer (unload_art_model s) = spacer s.
Proof.
  unfold unload_art_model.
  destruct (model_load_balancer s); [destruct (_ && _)|]; done.
Qed.

Lemma spacer_ok_do_generate (o : option string) (s : Widget) :
  spacer_ok s -> spacer_ok (do_generate o s).
Proof.
  intros Hok. destruct (view_unload_art_model s) as (Hl & Hsp).
  destruct (decide (effective_prompt o s = "")) as [Hp|Hp].
  { rewrite (do_generate_empty o s Hp). exact Hok. }
  destruct (generating s) eqn:Hg.
  - destruct (held_message s) as [h|] eqn:Hh.
    + rewrite (do_generate_held o s h Hp Hg Hh).
      now apply (spacer_ok_same_view s).
    + rewrite (do_generate_hold o s Hp Hg Hh).
      now apply (spacer_ok_same_view s).
  - rewrite (do_generate_idle o s Hp Hg). cbv zeta.
    set (r := append_message _ _ false _).
    assert (Hr : spacer_ok r.2).
    { apply spacer_ok_append_message. now apply (spacer_ok_same_view s). }
    destruct r as [[w|] s1]; exact Hr.
Qed.

Lemma spacer_ok_enable_generate (s : Widget) :
  spacer_ok s -> spacer_ok (enable_generate s).
Proof.
  intros Hok. unfold enable_generate. cbn [held_message set_generating].
  destruct (held_message s) as [h|]; [|exact Hok].
  apply (spacer_ok_same_view (do_generate (Some h) (set_generating false s)));
    try done.
  now apply spacer_ok_do_generate.
Qed.

Lemma spacer_ok_step (o : op) (s : Widget) :
  spacer_ok s -> spacer_ok (widget_of (step o s)).
Proof.
  intros Hok.
  destruct o; cbv beta zeta iota delta [step]; cbn [widget_of]; try exact Hok.
  - unfold on_load_conversation.
    destruct (ld_conversation_id data) as [cid|].
    + apply (spacer_ok_same_view
               (_set_conversation_widgets_loop (default [] (ld_messages data))
                  (_clear_conversation true
                     (emit (ClearHistory (Some cid))
                        (conversation_id_setter (Some cid) s))))); try done.
      apply spacer_ok__set_conversation_widgets_loop.
      apply spacer_ok__clear_conversation_widgets.
    + apply (spacer_ok_same_view (_clear_conversation true s)); try done.
      apply spacer_ok__clear_conversation_widgets.
  - unfold on_delete_conversation.
    destruct (dd_conversation_id data); [|exact Hok]. cbn [widget_of].
    destruct (_ || _); [|exact Hok].
    apply (spacer_ok_same_view (_clear_conversation_widgets false s)); try done.
    apply spacer_ok__clear_conversation_widgets.
  - unfold on_token_signal, handle_token_signal. now destruct (decide _).
  - unfold on_model_status_changed_signal.
    destruct (decide _); simpl; case_ifs; exact Hok.
  - apply spacer_ok__clear_conversation_widgets.
  - unfold on_hear_signal. now apply spacer_ok_do_generate.
  - unfold on_add_bot_message_to_conversation.
    destruct data as [| |r]; try exact Hok.
    destruct (node_id r); [exact Hok|]. cbn [widget_of].
    destruct (is_end_of_message r).
    + apply spacer_ok_enable_generate. now destruct (is_first_message r).
    + now destruct (is_first_message r).
  - unfold flush_token_buffer, apply_combined_message.
    destruct (decide _); [exact Hok|].
    destruct (not_last_bot_message _ _); [|exact Hok].
    now apply spacer_ok_add_message_to_conversation.
  - now apply spacer_ok_enable_generate.
  - apply spacer_ok__clear_conversation_widgets.
  - now apply spacer_ok_do_generate.
  - now apply spacer_ok_do_generate.
  - now apply spacer_ok_add_message_to_conversation.
Qed.

Lemma layout_add_spacer_count (s : Widget) :
  spacer_count (layout (add_spacer s)) = S (spacer_count (layout s)).
Proof.
  unfold add_spacer. destruct (spacer s); simpl;
    rewrite spacer_count_app; unfold spacer_count; simpl; lia.
Qed.

Lemma spacer_ok_remove_spacer (s : Widget) :
  spacer_ok s -> spacer_ok (remove_spacer s).
Proof.
  intros Hok. pose proof (spacer_count_remove_spacer s Hok) as H0.
  unfold spacer_ok. rewrite H0. split; [lia | done].
Qed.

Lemma spacer_ok_add_spacer (s : Widget) :
  spacer_count (layout s) = 0%nat -> spacer_ok (add_spacer s).
Proof.
  intros H0. unfold add_spacer, spacer_ok.
  destruct (spacer s) eqn:Hsp; simpl; rewrite spacer_count_app, H0;
    unfold spacer_count; simpl; (split; [lia|]); intros Hn; congruence.
Qed.

(** X11.  The layout holds the widget's spacer at most once, and not at
    all before [add_spacer] has built it.  Every call in the widget's
    list of calls keeps this, and so do [remove_spacer] alone and
    [remove_spacer] followed by [add_spacer], the way
    [add_message_to_conversation] calls them.  [add_spacer] alone does
    not: on a layout that holds the spacer it adds it a second time. *)
Theorem spacer_kept_single (s : Widget) :
  spacer_ok s ->
  (forall o, spacer_ok (widget_of (step o s))) /\
  spacer_ok (remove_spacer s) /\
  spacer_ok (add_spacer (remove_spacer s)) /\
  (spacer_count (layout s) = 1%nat -> ~ spacer_ok (add_spacer s)).
Proof.
  intros Hok. split; [|split; [|split]].
  - intros o. now apply spacer_ok_step.
  - now apply spacer_ok_remove_spacer.
  - apply spacer_ok_add_spacer. now apply spacer_count_remove_spacer.
  - intros H1 (Hle & _). rewrite layout_add_spacer_count in Hle. lia.
Qed.

Lemma filter_no_spacer (l : list LayoutItem) :
  spacer_count l = 0%nat -> List.filter (fun i => negb (is_spacer i)) l = l.
Proof.
  induction l as [|item rest IH]; [done|].
  unfold spacer_count in *. simpl.
  destruct (is_spacer item); simpl; [discriminate|].
  intros H0. now rewrite IH.
Qed.

Lemma removeItem_spacer_filter (l : list LayoutItem) :
  (spacer_count l <= 1)%nat ->
  removeItem_spacer l = List.filter (fun i => negb (is_spacer i)) l.
Proof.
  induction l as [|item rest IH]; [done|].
  unfold spacer_count in *.
  destruct item as [w| |b]; simpl; intros Hle.
  - now rewrite IH.
  - symmetry. apply filter_no_spacer. unfold spacer_count. lia.
  - now rewrite IH.
Qed.

Lemma layout_add_spacer (s : Widget) :
  layout (add_spacer s) = layout s ++ [ItemSpacer].
Proof. unfold add_spacer. now destruct (spacer s). Qed.

Lemma layout_remove_spacer (s : Widget) :
  spacer_ok s ->
  layout (remove_spacer s)
  = List.filter (fun i => negb (is_spacer i)) (layout s).
Proof.
  intros (Hle & Hnone). unfold remove_spacer.
  destruct (spacer s) as [sp|]; simpl.
  - now apply removeItem_spacer_filter.
  - symmetry. now apply filter_no_spacer, Hnone.
Qed.

(** X12.  Where the spacer goes when a whole message is added whose
    left-stripped and filtered text is not empty (a message of white
    space only is stripped to nothing and adds no entry).  In a layout
    that holds the spacer at most once, the items other than the spacer
    keep their order, the new entry comes after them, and the spacer is
    the last item. *)
Theorem add_message_whole_moves_spacer_last
    (n text : string) (b : bool) (s : Widget) :
  let m := strip_names_from_message (lstrip text)
             (username (user s)) (botname (chatbot s)) in
  let r := add_message_to_conversation n text b true s in
  spacer_ok s ->
  m <> "" ->
  exists w,
    r.1 = Some w /\
    layout r.2
    = List.filter (fun i => negb (is_spacer i)) (layout s)
      ++ [ItemMessage w; ItemSpacer].
Proof.
  intros m r Hok Hm. subst r.
  rewrite add_message_append by now left. fold m.
  unfold append_message. destruct (decide (m = "")) as [|_]; [done|].
  eexists. split; [reflexivity|].
  cbn [snd]. rewrite layout_add_spacer. unfold singleShot.
  cbn [layout emit set_log set_layout].
  rewrite (layout_remove_spacer s Hok). now rewrite <- app_assoc.
Qed.

(** *** The token signal *)





(** *** The Return key *)

(** X14.  On a reachable widget the Return key submits the prompt unless
    the modifiers are exactly Shift, and then the event does not reach
    the original handler; Shift with Return, and every other key, leave
    the widget as it is and go on to the original handler, if there is
    one. *)
Theorem handle_key_press_submits_on_return
    (original : bool) (event : QKeyEvent) (s : Widget) :
  reachable s ->
  (key event = Key_Return -> modifiers event <> ShiftModifier ->
   handle_key_press original event s = (do_generate None s, false)) /\
  (key event <> Key_Return \/ modifiers event = ShiftModifier ->
   handle_key_press original event s = (s, original)).
Proof.
  intros Hr. pose proof (reachable__disabled s Hr) as Hd.
  unfold handle_key_press. rewrite Hd. split.
  - intros Hk Hm. rewrite decide_True by exact Hk.
    now rewrite bool_decide_eq_false_2.
  - intros [Hk|Hm].
    + now rewrite decide_False.
    + rewrite (bool_decide_eq_true_2 _ Hm). simpl. now destruct (decide _).
Qed.

(** *** The action menu *)

(** X15.  The action menu and [llm_action_changed] agree: choosing a
    label of the menu sets the action listed with it, and the index
    selected at construction, when one is selected, is the entry of the
    current action.  With art disabled there is no entry for
    [GENERATE_IMAGE], and no index is selected for it. *)
Theorem action_menu_round_trip (art_enabled : bool) (s : Widget) :
  (forall label action,
      (label, action) ∈ action_map art_enabled ->
      llm_action (llm_action_changed label s) = action) /\
  (forall current i,
      current_index art_enabled current = Some i ->
      exists label, action_map art_enabled !! i = Some (label, current)) /\
  current_index false GENERATE_IMAGE = None.
Proof.
  split; [|split; [|reflexivity]].
  - intros label action Hin. unfold action_map in Hin.
    destruct art_enabled; simpl in Hin;
      repeat (apply elem_of_cons in Hin as [Hin|Hin];
              [injection Hin as -> ->; reflexivity|]);
      now apply elem_of_nil in Hin.
  - intros current i Hi.
    destruct art_enabled, current; vm_compute in Hi;
      try discriminate Hi; injection Hi as <-; eexists; reflexivity.
Qed.

(** *** Requests sent *)

Lemma do_generate_sends (o : option string) (s : Widget) :
  sends (do_generate o s) = sends s
  \/ exists c,
       sends (do_generate o s) = sends s ++ [c] /\
       ev c = SendRequest (effective_prompt o s) (llm_action s) false /\
       at_generating c = true /\
       generating (do_generate o s) = true.
Proof.
  destruct (do_generate_cases o s)
    as [(Hp & ->)|[(Hp & Hg & Hh & ->)|[(Hp & Hg & Hh & ->)|(Hp & Hg & s1 & Hs1 & ->)]]].
  - left. now apply sends_emit_other.
  - left. rewrite sends_interrupt_button_clicked.
    apply (same_core_unload_art_model s).
  - left. apply (same_core_unload_art_model s).
  - right. eexists. split.
    + rewrite sends_emit. unfold start_progress_bar.
      change (sends (emit ProgressBarStart (clear_prompt s1)))
        with (sends (emit ProgressBarStart s1)).
      rewrite sends_emit_other by discriminate.
      destruct Hs1 as (_&_&_&_&_&_&_&_&_&_&_&_&_&_& ->).
      reflexivity.
    + destruct Hs1 as (_& Hg1 &_). simpl in *. done.
Qed.

Lemma enable_generate_sends (s : Widget) :
  sends (enable_generate s) = sends s
  \/ exists c,
       sends (enable_generate s) = sends s ++ [c] /\
       at_generating c = true /\
       generating (enable_generate s) = true.
Proof.
  unfold enable_generate. cbn [held_message set_generating].
  rewrite sends_enable_send_button.
  destruct (held_message s) as [h|]; [|now left].
  change (sends (set_held_message None ?x)) with (sends x).
  destruct (do_generate_sends (Some h) (set_generating false s))
    as [Hs|(c & Hs & _ & Hc & Hg)].
  - left. exact Hs.
  - right. exists c. repeat split; try done.
Qed.

(** X16.  A call of the widget sends at most one request; when it sends
    one, the request is made with [generating] set, and [generating] is
    still set when the call returns. *)
Theorem at_most_one_send_per_call (o : op) (s : Widget) :
  let s' := widget_of (step o s) in
  sends s' = sends s
  \/ exists c,
       sends s' = sends s ++ [c] /\ at_generating c = true /\
       generating s' = true.
Proof.
  assert (Hgen : forall ov s0, sends s0 = sends s ->
            sends (do_generate ov s0) = sends s
            \/ exists c,
                 sends (do_generate ov s0) = sends s ++ [c] /\
                 at_generating c = true /\
                 generating (do_generate ov s0) = true).
  { intros ov s0 H0.
    destruct (do_generate_sends ov s0) as [Hs|(c & Hs & _ & Hc & Hg)].
    - left. now rewrite Hs.
    - right. exists c. rewrite Hs, H0. done. }
  assert (Hen : forall s0, sends s0 = sends s ->
            sends (enable_generate s0) = sends s
            \/ exists c,
                 sends (enable_generate s0) = sends s ++ [c] /\
                 at_generating c = true /\
                 generating (enable_generate s0) = true).
  { intros s0 H0.
    destruct (enable_generate_sends s0) as [Hs|(c & Hs & Hc & Hg)].
    - left. now rewrite Hs.
    - right. exists c. rewrite Hs, H0. done. }
  destruct o; cbv beta zeta iota delta [step]; cbn [widget_of].
  - left. apply on_load_conversation_session.
  - left. apply (on_delete_conversation_session data s).
  - left. now apply sends_emit_other.
  - left. now apply sends_emit_other.
  - left. unfold on_token_signal, handle_token_signal.
    destruct (decide _); [|reflexivity].
    rewrite sends_enable_send_button.
    now apply (sends_emit_other ProgressBarStop s).
  - left. unfold on_model_status_changed_signal, disable_send_button.
    destruct (decide _); simpl; case_ifs;
      rewrite ?sends_enable_send_button; reflexivity.
  - left. unfold on_chatbot_changed.
    destruct (_clear_conversation_core false (emit (ClearHistory None) s))
      as (_&_&_&_&_&_&_&_&_&_&_&_&_&_& ->).
    now apply (sends_emit_other (ClearHistory None) s).
  - unfold on_hear_signal. now apply Hgen.
  - unfold on_add_bot_message_to_conversation.
    destruct data as [| |r]; cbn [widget_of]; try (now left).
    destruct (node_id r); cbn [widget_of]; [now left|].
    destruct (is_end_of_message r).
    + apply Hen. destruct (is_first_message r); [|reflexivity].
      unfold stop_progress_bar. now rewrite sends_emit_other by discriminate.
    + left. destruct (is_first_message r); [|reflexivity].
      unfold stop_progress_bar. now rewrite sends_emit_other by discriminate.
  - left. apply flush_token_buffer_session.
  - now apply Hen.
  - left. now apply sends_emit_other.
  - left. apply (_clear_conversation_core false s).
  - now apply Hgen.
  - left. apply sends_interrupt_button_clicked.
  - now apply Hgen.
  - now left.
  - now left.
  - now left.
  - left. now apply sends_emit_other.
  - left. now apply sends_emit_other.
  - now left.
  - left. apply sends_enable_send_button.
  - left. apply same_core_add_message_to_conversation.
  - now left.
  - now left.
Qed.

(** X17.  What [enable_generate] leaves behind on a reachable widget:
    nothing held; [generating] set exactly when a held prompt was
    re-submitted; and the send button enabled as its last call. *)
Theorem enable_generate_ends_or_resumes (s : Widget) :
  reachable s ->
  held_message (enable_generate s) = None /\
  generating (enable_generate s)
  = match held_message s with Some _ => true | None => false end /\
  last (call_names (enable_generate s)) = Some SendButtonEnable.
Proof.
  intros Hr. split; [apply enable_generate_held_message|]. split.
  - pose proof (reachable_held_nonempty s Hr) as Hne.
    unfold enable_generate. cbn [held_message set_generating generating
      enable_send_button set__disabled emit set_log].
    destruct (held_message s) as [h|]; [|reflexivity].
    cbn [generating set_held_message].
    destruct (do_generate_send (Some h) (set_generating false s))
      as (s1 & (_ & Hg & _) & ->).
    + unfold effective_prompt. destruct (decide (h = "")) as [->|]; [done|].
      intros ->. done.
    + reflexivity.
    + simpl. exact Hg.
  - unfold enable_generate, enable_send_button.
    change (call_names (set__disabled false ?x)) with (call_names x).
    rewrite call_names_emit. apply last_snoc.
Qed.

(** *** From the prompt to the answer *)

Lemma do_generate_idle_entries (o : option string) (s : Widget) :
  effective_prompt o s <> "" -> generating s = false ->
  let m := strip_names_from_message (lstrip (prompt s))
             (username (user s)) (botname (chatbot s)) in
  (m = "" -> entries (do_generate o s) = entries s) /\
  (m <> "" ->
   exists w, entries (do_generate o s) = entries s ++ [w] /\
             shown w = (username (user s), m, false)).
Proof.
  intros Hp Hg m. rewrite (do_generate_idle o s Hp Hg). cbv zeta. fold m.
  set (s0 := set_generating true (unload_art_model s)).
  assert (H0 : entries s0 = entries s).
  { unfold entries. subst s0. simpl. now rewrite (proj1 (view_unload_art_model s)). }
  split.
  - intros ->. rewrite append_message_nothing. cbn [fst snd].
    change (entries (emit ?e (start_progress_bar (clear_prompt ?x))))
      with (entries x).
    now rewrite entries_add_spacer, entries_remove_spacer.
  - intros Hm.
    destruct (append_message_meta (username (user s)) m false s0 Hm)
      as (w & Hw & He & Hshown & _).
    exists w. split; [|exact Hshown].
    rewrite Hw.
    change (entries (emit ?e (start_progress_bar (clear_prompt
              (singleShot ?a ?b (singleShot ?c ?d ?x))))))
      with (entries x).
    now rewrite He, H0.
Qed.

Lemma do_generate_idle_sends (o : option string) (s : Widget) :
  effective_prompt o s <> "" -> generating s = false ->
  exists c, sends (do_generate o s) = sends s ++ [c] /\
            ev c = SendRequest (effective_prompt o s) (llm_action s) false.
Proof.
  intros Hp Hg.
  destruct (do_generate_send o s Hp Hg) as (s1 & Hc & ->).
  eexists. split.
  - rewrite sends_emit. unfold start_progress_bar.
    change (sends (emit ProgressBarStart (clear_prompt s1)))
      with (sends (emit ProgressBarStart s1)).
    rewrite sends_emit_other by discriminate.
    destruct Hc as (_&_&_&_&_&_&_&_&_&_&_&_&_&_& ->). reflexivity.
  - reflexivity.
Qed.

(** X18.  The entry that [do_generate] adds to the view is built from
    [self.prompt], whatever prompt is sent: with a [prompt_override] the
    request carries the override while the view shows the typed prompt,
    and shows nothing new when the typed prompt is filtered to empty. *)
Theorem do_generate_shows_typed_prompt (override : string) (s : Widget) :
  override <> "" -> generating s = false ->
  let m := strip_names_from_message (lstrip (prompt s))
             (username (user s)) (botname (chatbot s)) in
  let s' := do_generate (Some override) s in
  (exists c, sends s' = sends s ++ [c] /\
             ev c = SendRequest override (llm_action s) false) /\
  (m = "" -> entries s' = entries s) /\
  (m <> "" ->
   exists w, entries s' = entries s ++ [w] /\
             shown w = (username (user s), m, false)).
Proof.
  intros Ho Hg m s'.
  assert (Hp : effective_prompt (Some override) s = override).
  { unfold effective_prompt. now destruct (decide (override = "")). }
  split.
  - destruct (do_generate_idle_sends (Some override) s) as (c & Hs & Hev).
    { now rewrite Hp. } { exact Hg. }
    exists c. rewrite Hp in Hev. done.
  - apply do_generate_idle_entries; [now rewrite Hp | exact Hg].
Qed.

Lemma on_add_bot_message_to_conversation_quiet (r : LLMResponse) (s : Widget) :
  held_message s = None -> node_id r = None ->
  let s' := widget_of (on_add_bot_message_to_conversation (Response r) s) in
  layout s' = layout s /\ held_message s' = None /\
  user s' = user s /\ chatbot s' = chatbot s /\
  conversation_history s' = conversation_history s /\ sends s' = sends s.
Proof.
  intros Hh Hn. unfold on_add_bot_message_to_conversation. rewrite Hn.
  cbn [widget_of]. unfold enable_generate, stop_progress_bar, enable_send_button.
  destruct (is_first_message r), (is_end_of_message r);
    cbn [held_message set_generating set_token_buffer emit set_log];
    rewrite ?Hh; unfold sends; simpl; rewrite ?List.filter_app; simpl;
    rewrite ?app_nil_r; repeat split; exact Hh.
Qed.

Lemma run_stream_quiet (responses : list LLMResponse) (s : Widget) :
  held_message s = None ->
  Forall (fun r => node_id r = None) responses ->
  let s' := run (stream responses) s in
  layout s' = layout s /\ held_message s' = None /\
  user s' = user s /\ chatbot s' = chatbot s /\
  conversation_history s' = conversation_history s /\ sends s' = sends s.
Proof.
  intros Hh Hall. revert s Hh.
  induction Hall as [|r rest Hr _ IH]; intros s Hh.
  - simpl. repeat split. exact Hh.
  - change (run (stream (r :: rest)) s)
      with (run (stream rest)
              (widget_of (on_add_bot_message_to_conversation (Response r) s))).
    destruct (on_add_bot_message_to_conversation_quiet r s Hh Hr)
      as (Hl & Hh' & Hu & Hc & Hch & Hs).
    cbv zeta in *. destruct (IH _ Hh') as (-> & -> & -> & -> & -> & ->).
    repeat split; done.
Qed.

(** X19.  A prompt and its answer.  On an idle widget with nothing held,
    an empty token buffer and an empty history list, the typed prompt is
    submitted, the answer arrives in fragments without a node id, and
    the buffer is flushed.  The prompt is not empty and not left-stripped
    and filtered to nothing; the fragments do not join to the empty text
    and their text is not filtered to nothing.  Then the view has two
    more entries, the user's left-stripped and filtered prompt and one
    bot message with the whole filtered answer, one request was sent,
    with the prompt as typed, and the token buffer is empty again. *)
Theorem prompt_then_streamed_answer (responses : list LLMResponse) (s : Widget) :
  let p := strip_names_from_message (lstrip (prompt s))
             (username (user s)) (botname (chatbot s)) in
  let answer := strip_names_from_message (join (map r_message responses))
                  (username (user s)) (botname (chatbot s)) in
  let s' := flush_token_buffer (run (stream responses) (do_generate None s)) in
  generating s = false -> held_message s = None ->
  token_buffer s = [] -> conversation_history s = [] ->
  prompt s <> "" -> p <> "" ->
  Forall (fun r => node_id r = None) responses ->
  join (map r_message responses) <> "" -> answer <> "" ->
  (exists wu wb,
      entries s' = entries s ++ [wu; wb] /\
      shown wu = (username (user s), p, false) /\
      shown wb = (botname (chatbot s), answer, true)) /\
  (exists c, sends s' = sends s ++ [c] /\
             ev c = SendRequest (prompt s) (llm_action s) false) /\
  token_buffer s' = [].
Proof.
  intros p answer s' Hg Hh Hb Hch Hprompt Hp Hall Hjoin Hanswer.
  set (s1 := do_generate None s) in *.
  assert (Heff : effective_prompt None s <> "") by exact Hprompt.
  (* the submission *)
  destruct (do_generate_idle_entries None s Heff Hg) as (_ & Hentry).
  destruct (Hentry Hp) as (wu & He1 & Hwu). fold s1 in He1.
  destruct (do_generate_send None s Heff Hg) as (s1' & Hc1 & Heq1).
  fold s1 in Heq1.
  assert (H1 : held_message s1 = None /\ user s1 = user s /\
               chatbot s1 = chatbot s /\ conversation_history s1 = [] /\
               token_buffer s1 = []).
  { rewrite Heq1.
    destruct Hc1 as (Ht &_&_& Hh1 &_&_& Hch1 &_&_&_&_& Hu1 & Hcb1 &_).
    simpl in *. rewrite Ht, Hh1, Hch1, Hu1, Hcb1. done. }
  destruct H1 as (Hh1 & Hu1 & Hcb1 & Hch1 & Hb1).
  assert (Hsends1 : exists c, sends s1 = sends s ++ [c] /\
                      ev c = SendRequest (prompt s) (llm_action s) false).
  { exact (do_generate_idle_sends None s Heff Hg). }
  (* the stream *)
  set (s2 := run (stream responses) s1) in *.
  destruct (run_stream_quiet responses s1 Hh1 Hall)
    as (Hl2 & Hh2 & Hu2 & Hcb2 & Hch2 & Hs2).
  fold s2 in Hl2, Hh2, Hu2, Hcb2, Hch2, Hs2.
  pose proof (run_stream_buffer responses s1 Hall) as Hb2.
  fold s2 in Hb2. rewrite Hb1 in Hb2. simpl in Hb2.
  (* the flush *)
  destruct (flush_token_buffer_session s2) as (_ & _ & Hb3 & Hs3 & _).
  fold s' in Hb3, Hs3.
  split; [|split; [|exact Hb3]].
  - assert (Hflush : s' = (add_message_to_conversation (botname (chatbot s))
                             (join (map r_message responses)) true false
                             (set_token_buffer [] s2)).2).
    { subst s'. unfold flush_token_buffer, apply_combined_message.
      rewrite Hb2. destruct (decide _) as [|_]; [done|].
      cbn [conversation_history set_token_buffer chatbot].
      rewrite Hch2, Hch1, Hcb2, Hcb1. reflexivity. }
    assert (He2 : entries (set_token_buffer [] s2) = entries s ++ [wu]).
    { unfold entries in *. cbn [layout set_token_buffer]. now rewrite Hl2. }
    destruct (add_message_append_entries (botname (chatbot s))
                (join (map r_message responses)) true (set_token_buffer [] s2))
      as (wb & He3 & Hn & Hm & Hbot).
    + right. exists wu. split; [rewrite He2; apply last_snoc|].
      unfold shown in Hwu. now injection Hwu.
    + cbn [user chatbot set_token_buffer]. now rewrite Hu2, Hu1, Hcb2, Hcb1.
    + exists wu, wb. rewrite Hflush, He3, He2, <- app_assoc.
      repeat split; try done.
      cbn [user chatbot set_token_buffer] in Hm.
      rewrite Hu2, Hu1, Hcb2, Hcb1 in Hm.
      unfold shown. now rewrite Hn, Hm, Hbot.
  - destruct Hsends1 as (c & Hs1 & Hev). exists c.
    rewrite Hs3, Hs2. done.
Qed.

(** *** The guard against repeated text *)

(** C5 (the code at its failing input).  The guard of [flush_token_buffer]
    that is to "prevent duplicate bot messages" reads
    [conversation_history], which stays empty, so on a reachable widget it
    never holds a flush back.  When the drained text is the one the last
    bot entry of the view already shows, the flush is not a no-op: it
    calls [add_message_to_conversation] again, which updates that entry
    with the same text and schedules a scroll.  No entry is added. *)
Theorem flush_applies_repeated_text_again (s : Widget) (w : MessageWidget) :
  let text := join (token_buffer s) in
  let m := strip_names_from_message text (username (user s)) (botname (chatbot s)) in
  reachable s ->
  text <> "" -> m <> "" ->
  last (entries s) = Some w -> is_bot w = true -> message w = m ->
  not_last_bot_message (conversation_history s) text = true /\
  flush_token_buffer s
  = (add_message_to_conversation (botname (chatbot s)) text true false
       (set_token_buffer [] s)).2 /\
  call_names (flush_token_buffer s)
  = call_names s ++ [SingleShot 0 ScrollToBottom] /\
  flush_token_buffer s <> set_token_buffer [] s /\
  length (entries (flush_token_buffer s)) = length (entries s).
Proof.
  intros text m Hr Htext Hm Hlast Hbot Hmsg.
  pose proof (reachable_conversation_history s Hr) as Hh.
  assert (Hflush : flush_token_buffer s
                   = (add_message_to_conversation (botname (chatbot s)) text
                        true false (set_token_buffer [] s)).2).
  { unfold flush_token_buffer, apply_combined_message. fold text.
    destruct (decide (text = "")) as [|_]; [done|].
    cbn [conversation_history set_token_buffer chatbot]. now rewrite Hh. }
  assert (Hcalls : call_names (flush_token_buffer s)
                   = call_names s ++ [SingleShot 0 ScrollToBottom]).
  { rewrite Hflush.
    destruct (add_message_mutate (botname (chatbot s)) text true
                (set_token_buffer [] s) w Hlast Hbot Hm)
      as (l1 & l2 & _ & _ & ->).
    unfold singleShot. cbn [snd]. now rewrite call_names_emit. }
  split; [now rewrite Hh|]. split; [exact Hflush|]. split; [exact Hcalls|]. split.
  - intros Heq. rewrite Heq in Hcalls.
    change (call_names (set_token_buffer [] s)) with (call_names s) in Hcalls.
    apply (f_equal length) in Hcalls. rewrite length_app in Hcalls.
    simpl in Hcalls. lia.
  - rewrite Hflush.
    destruct (add_message_mutate_entries (botname (chatbot s)) text true
                (set_token_buffer [] s) w Hlast Hbot Hm)
      as (before & He & He' & _).
    rewrite He'. change (entries (set_token_buffer [] s)) with (entries s) in He.
    now rewrite He, !length_app.
Qed.

(** *** Leading white space *)

(** [lstrip] takes off white space of one, two and three bytes: a space,
    U+00A0, U+2003 and U+3000 in front of "hi ", whose own space stays. *)
Example lstrip_unicode_white_space :
  lstrip (String " "
           (String (ascii_of_nat 194) (String (ascii_of_nat 160)
           (String (ascii_of_nat 226) (String (ascii_of_nat 128) (String (ascii_of_nat 131)
           (String (ascii_of_nat 227) (String (ascii_of_nat 128) (String (ascii_of_nat 128)
           "hi ")))))))))
  = "hi ".
Proof. reflexivity. Qed.


End Methods.


(** ** The properties on concrete widgets *)

Local Abbreviation run_ := (run strip_nothing any_conversation unload_all).
Local Abbreviation step_ := (step strip_nothing any_conversation unload_all).
Local Abbreviation reachable_ := (reachable strip_nothing any_conversation unload_all).
Local Abbreviation do_generate_ := (do_generate strip_nothing unload_all).
Local Abbreviation enable_generate_ := (enable_generate strip_nothing unload_all).
Local Abbreviation flush_ := (flush_token_buffer strip_nothing).
Local Abbreviation add_message_ := (add_message_to_conversation strip_nothing).

(** C1, as stated, fails: after a prompt is sent and a second one is
    submitted, the second is held and [generating] is false. *)
Lemma held_without_generating :
  ~ (forall s,
        session_reachable strip_nothing any_conversation unload_all s ->
        held_only_while_generating s).
Proof.
  intros H. specialize (H (run_ two_prompts fresh_widget)).
  assert (Hr : session_reachable strip_nothing any_conversation unload_all
                 (run_ two_prompts fresh_widget)).
  { apply reachable_by_run.
    - apply reach_initial, initial_fresh_widget.
    - repeat constructor. }
  specialize (H Hr). unfold held_only_while_generating in H.
  vm_compute in H.
  assert (Hf : false = true) by (apply H; discriminate).
  discriminate Hf.
Qed.

Lemma held_message_set_only_while_generating_witness :
  let s := run_ [DoGenerate (Some "a")] fresh_widget in
  let s' := widget_of (step_ (DoGenerate (Some "b")) s) in
  held_message s = None /\ held_message s' = Some "b" /\
  generating s = true /\ generating s' = false /\ "b" <> "".
Proof.
  split; [reflexivity|]. split; [reflexivity|].
  apply (held_message_set_only_while_generating strip_nothing any_conversation
           unload_all (DoGenerate (Some "b"))
           (run_ [DoGenerate (Some "a")] fresh_widget) "b");
    reflexivity.
Defined.

(** C2, as stated, fails: with "b" held and a third prompt being
    answered, a fourth prompt "d" does not replace "b". *)
Lemma held_prompt_not_overwritten :
  ~ (forall o s,
        reachable_ s -> generating s = true -> effective_prompt o s <> "" ->
        last_write_wins strip_nothing unload_all o s).
Proof.
  intros H.
  destruct (H (Some "d") (run_ three_prompts fresh_widget)) as [_ Hh].
  - apply reachable_run_fresh.
  - reflexivity.
  - discriminate.
  - vm_compute in Hh. discriminate Hh.
Qed.

Lemma do_generate_while_generating_witness :
  let s := run_ three_prompts fresh_widget in
  generating s = true /\ effective_prompt (Some "d") s <> "" /\
  sends (do_generate_ (Some "d") s) = sends s /\
  held_message (do_generate_ (Some "d") s) = Some "b".
Proof.
  split; [reflexivity|]. split; [discriminate|].
  apply (do_generate_while_generating strip_nothing unload_all (Some "d")
           (run_ three_prompts fresh_widget)).
  - reflexivity.
  - discriminate.
Defined.

(** C3, as stated, fails: the held prompt "b" is re-submitted while it is
    still held. *)
Lemma held_prompt_cleared_after_send :
  ~ (forall s held,
        reachable_ s -> held_message s = Some held ->
        resubmits_after_clearing strip_nothing unload_all held s).
Proof.
  intros H.
  destruct (H (run_ two_prompts fresh_widget) "b") as (c & Hs & _ & Hn & _).
  - apply reachable_run_fresh.
  - reflexivity.
  - vm_compute in Hs. injection Hs as <-. discriminate Hn.
Qed.

Lemma enable_generate_resubmits_held_witness :
  let s := run_ two_prompts fresh_widget in
  reachable_ s /\ held_message s = Some "b" /\
  sends (enable_generate_ s)
  = sends s ++ [ {| ev := SendRequest "b" (llm_action s) false;
                    at_generating := true; at_held := Some "b" |} ] /\
  held_message (enable_generate_ s) = None.
Proof.
  split; [apply reachable_run_fresh|]. split; [reflexivity|].
  apply (enable_generate_resubmits_held strip_nothing any_conversation unload_all
           (run_ two_prompts fresh_widget) "b").
  - apply reachable_run_fresh.
  - reflexivity.
Defined.

Lemma first_two_entries_share_message_id_witness :
  let s1 := snd (add_message_ "User" "hello" false true fresh_widget) in
  let s2 := snd (add_message_ "Bot" "Hi" true true s1) in
  layout fresh_widget = [] /\
  length (entries s1) = 1%nat /\ map message_id (entries s2) = [0; 0].
Proof.
  split; [reflexivity|].
  apply (first_two_entries_share_message_id strip_nothing
           "User" "hello" "Bot" "Hi" false true fresh_widget).
  - reflexivity.
  - discriminate.
  - discriminate.
Defined.

Lemma flush_applies_repeated_text_again_witness :
  let s := run_ answer_repeated fresh_widget in
  reachable_ s /\
  last (entries s) = Some bot_hi_there /\
  not_last_bot_message (conversation_history s) "Hi there" = true /\
  flush_ s = (add_message_ "Bot" "Hi there" true false (set_token_buffer [] s)).2 /\
  call_names (flush_ s) = call_names s ++ [SingleShot 0 ScrollToBottom] /\
  flush_ s <> set_token_buffer [] s /\
  length (entries (flush_ s)) = length (entries s).
Proof.
  split; [apply reachable_run_fresh|]. split; [reflexivity|].
  apply (flush_applies_repeated_text_again strip_nothing any_conversation
           unload_all (run_ answer_repeated fresh_widget) bot_hi_there).
  - apply reachable_run_fresh.
  - discriminate.
  - discriminate.
  - reflexivity.
  - reflexivity.
  - reflexivity.
Defined.

Lemma add_message_mutates_bot_or_appends_witness :
  let s := run_ hello_hi fresh_widget in
  let s' := snd (add_message_ "Bot" "Hi there" true false s) in
  let u := run_ [AddMessageToConversation "User" "hello" false true] fresh_widget in
  let u' := snd (add_message_ "Bot" "Hi" true false u) in
  (last (entries s) = Some bot_hi /\
   strip_nothing "Hi there" (username (user s)) (botname (chatbot s)) <> "" /\
   length (entries s') = length (entries s) /\
   last (entries s') = Some (update_message bot_hi "Hi there")) /\
  (last (entries u) = Some user_hello /\
   strip_nothing "Hi" (username (user u)) (botname (chatbot u)) <> "" /\
   length (entries u') = S (length (entries u))).
Proof.
  split.
  - split; [reflexivity|]. split; [discriminate|].
    destruct (add_message_mutates_bot_or_appends strip_nothing
                "Bot" "Hi there" true (run_ hello_hi fresh_widget) bot_hi)
      as [Hbot _].
    + reflexivity.
    + discriminate.
    + destruct (Hbot eq_refl) as (before & _ & He' & _ & Hlen & _).
      split; [exact Hlen|]. rewrite He'. apply last_snoc.
  - split; [reflexivity|]. split; [discriminate|].
    destruct (add_message_mutates_bot_or_appends strip_nothing
                "Bot" "Hi" true
                (run_ [AddMessageToConversation "User" "hello" false true]
                   fresh_widget) user_hello)
      as [_ Huser].
    + reflexivity.
    + discriminate.
    + destruct (Huser eq_refl) as (w' & _ & _ & _ & Hlen). exact Hlen.
Defined.

Lemma flush_concatenates_in_arrival_order_witness :
  let s1 := run_ (stream hi_there) fresh_widget in
  token_buffer fresh_widget = [] /\
  Forall (fun r => node_id r = None) hi_there /\
  token_buffer s1 = ["Hi"; " there"] /\
  flush_ s1 = apply_combined_message strip_nothing "Hi there" (set_token_buffer [] s1) /\
  token_buffer (flush_ s1) = [] /\
  flush_ (flush_ s1) = flush_ s1.
Proof.
  split; [reflexivity|]. split; [repeat constructor|].
  apply (flush_concatenates_in_arrival_order strip_nothing any_conversation
           unload_all hi_there fresh_widget).
  - reflexivity.
  - repeat constructor.
Defined.

(** C8, as stated, fails: conversation 1 is active and conversation 2 is
    deleted; the view is left alone but the widget forgets its
    conversation. *)
Lemma delete_other_conversation_forgets_active :
  ~ (forall deleted s, reachable_ s -> delete_clears_or_noop deleted s).
Proof.
  intros H.
  destruct (H (Some 2) (run_ load_one fresh_widget)) as [_ Hnoop].
  - apply reachable_run_fresh.
  - assert (Hother : ~ (conversation_id (run_ load_one fresh_widget) = Some 2
                        \/ conversation_id (run_ load_one fresh_widget) = None)).
    { vm_compute. intros [Heq|Heq]; discriminate Heq. }
    specialize (Hnoop Hother).
    apply (f_equal _conversation_id) in Hnoop.
    vm_compute in Hnoop. discriminate Hnoop.
Qed.

Lemma on_delete_conversation_resets_conversation_witness :
  let s := run_ load_one fresh_widget in
  let s' := widget_of (on_delete_conversation {| dd_conversation_id := Some (Some 2) |} s) in
  conversation_id s = Some 1 /\
  s' = set__conversation_id None (set__conversation None s) /\
  conversation_id s' = None.
Proof.
  split; [reflexivity|].
  destruct (on_delete_conversation_resets_conversation (Some 2)
              (run_ load_one fresh_widget)) as (_ & Hkeep & _ & Hid).
  split; [|exact Hid].
  apply Hkeep. vm_compute. intros [Heq|Heq]; discriminate Heq.
Defined.

Lemma conversation_history_stays_empty_witness :
  let s := run_ (DoGenerate (Some "hello") :: stream hi_there) fresh_widget in
  reachable_ s /\
  conversation_history s = [] /\
  (forall o, conversation_history (widget_of (step_ o s)) = []) /\
  (join (token_buffer s) <> "" ->
   flush_ s = snd (add_message_ (botname (chatbot s)) (join (token_buffer s))
                     true false (set_token_buffer [] s))).
Proof.
  split; [apply reachable_run_fresh|].
  apply (conversation_history_stays_empty strip_nothing any_conversation unload_all).
  apply reachable_run_fresh.
Defined.

(** ** The further properties on concrete widgets *)

Local Abbreviation on_load_ := (on_load_conversation strip_nothing any_conversation).
Local Abbreviation handle_key_press_ := (handle_key_press strip_nothing unload_all).
Local Abbreviation typed_hello :=
  (run_ [UserEditsPrompt "hello"; PromptTextChanged] fresh_widget).

Lemma token_buffer_only_emptied_by_flush_witness :
  let s := run_ (stream hi_there) fresh_widget in
  OnClearConversation <> FlushTokenBuffer /\
  token_buffer s = ["Hi"; " there"] /\
  token_buffer s `prefix_of` token_buffer (widget_of (step_ OnClearConversation s)).
Proof.
  split; [discriminate|]. split; [reflexivity|].
  apply (token_buffer_only_emptied_by_flush strip_nothing any_conversation
           unload_all OnClearConversation (run_ (stream hi_there) fresh_widget)).
  discriminate.
Defined.

Lemma send_button_never_disabled_witness :
  let s := run_ two_prompts fresh_widget in
  reachable_ s /\
  _disabled s = false /\ forall o, _disabled (widget_of (step_ o s)) = false.
Proof.
  split; [apply reachable_run_fresh|].
  apply (send_button_never_disabled strip_nothing any_conversation unload_all).
  apply reachable_run_fresh.
Defined.

Lemma on_load_conversation_sets_active_witness :
  let zero := {| ld_conversation_id := Some 0; ld_messages := None |} in
  let seven := {| ld_conversation_id := Some 7; ld_messages := None |} in
  (ld_conversation_id zero = Some 0 /\
   conversation_id (on_load_ zero fresh_widget) = Some 0 /\
   conversation (on_load_ zero fresh_widget) = None) /\
  (ld_conversation_id seven = Some 7 /\
   conversation_id (on_load_ seven fresh_widget) = Some 7 /\
   conversation (on_load_ seven fresh_widget) = Some {| conv_id := 7 |}).
Proof.
  split; (split; [reflexivity|]).
  - exact (on_load_conversation_sets_active strip_nothing any_conversation
             {| ld_conversation_id := Some 0; ld_messages := None |}
             fresh_widget 0 eq_refl).
  - exact (on_load_conversation_sets_active strip_nothing any_conversation
             {| ld_conversation_id := Some 7; ld_messages := None |}
             fresh_widget 7 eq_refl).
Defined.

Lemma conversation_matches_its_id_witness :
  let s := run_ load_one fresh_widget in
  (forall z c, any_conversation z = Some c -> conv_id c = z) /\
  reachable_ s /\
  conversation s = Some {| conv_id := 1 |} /\
  (conversation_id s = None -> conversation s = None) /\
  (forall c, conversation s = Some c -> conversation_id s = Some (conv_id c)).
Proof.
  assert (Hlookup : forall z c, any_conversation z = Some c -> conv_id c = z).
  { intros z c Hc. injection Hc as <-. reflexivity. }
  split; [exact Hlookup|]. split; [apply reachable_run_fresh|].
  split; [reflexivity|].
  apply (conversation_matches_its_id strip_nothing any_conversation unload_all).
  - exact Hlookup.
  - apply reachable_run_fresh.
Defined.

Lemma add_message_whole_appends_entry_witness :
  let r := add_message_ "Bot" "  Hi" true true fresh_widget in
  strip_nothing (lstrip "  Hi") (username (user fresh_widget))
    (botname (chatbot fresh_widget)) <> "" /\
  exists w,
    r.1 = Some w /\ entries r.2 = [w] /\ shown w = ("Bot", "Hi", true) /\
    mw_conversation_id w = None /\ mood w = None.
Proof.
  split; [discriminate|].
  destruct (add_message_whole_appends_entry strip_nothing "Bot" "  Hi" true
              fresh_widget) as (w & H1 & H2 & H3 & H4 & H5 & _).
  - discriminate.
  - exists w. repeat split; assumption.
Defined.

Lemma add_message_empty_text_adds_nothing_witness :
  let s := run_ hello_hi fresh_widget in
  let r := add_message_ "User" "   " false true s in
  strip_nothing (lstrip "   ") (username (user s)) (botname (chatbot s)) = "" /\
  r.1 = None /\ entries r.2 = entries s /\ call_names r.2 = call_names s.
Proof.
  split; [reflexivity|].
  apply (add_message_empty_text_adds_nothing strip_nothing "User" "   " false true
           (run_ hello_hi fresh_widget)).
  reflexivity.
Defined.

Lemma on_load_conversation_renders_messages_witness :
  let data :=
    {| ld_conversation_id := Some 7;
       ld_messages :=
         Some [ {| m_name := "User"; m_content := " hello"; m_is_bot := false |};
                {| m_name := "Bot"; m_content := ""; m_is_bot := true |};
                {| m_name := "Bot"; m_content := "Hi"; m_is_bot := true |};
                {| m_name := "Bot"; m_content := "again"; m_is_bot := true |} ] |} in
  let s' := on_load_ data (run_ hello_hi fresh_widget) in
  ld_conversation_id data = Some 7 /\
  map shown (entries s')
  = [("User", "hello", false); ("Bot", "Hi", true); ("Bot", "again", true)] /\
  Forall (fun w => mw_conversation_id w = Some 7) (entries s') /\
  conversation_history s' = [].
Proof.
  intros data s'. split; [reflexivity|].
  exact (on_load_conversation_renders_messages strip_nothing any_conversation
           data (run_ hello_hi fresh_widget) 7 eq_refl).
Defined.

Lemma on_load_conversation_without_id_witness :
  let data :=
    {| ld_conversation_id := None;
       ld_messages :=
         Some [ {| m_name := "User"; m_content := "hello"; m_is_bot := false |} ] |} in
  let s := run_ hello_hi fresh_widget in
  let s' := on_load_ data s in
  ld_conversation_id data = None /\
  layout s' = [] /\
  conversation s' = None /\ conversation_id s' = None /\
  conversation_history s' = [] /\
  call_names s'
  = call_names s ++ [DeleteLater; DeleteLater; SingleShot 100 ScrollToBottom].
Proof.
  intros data s s'. split; [reflexivity|].
  exact (on_load_conversation_without_id strip_nothing any_conversation
           data s eq_refl).
Defined.

Lemma spacer_kept_single_witness :
  let s := run_ hello_hi fresh_widget in
  spacer_ok s /\
  (forall o, spacer_ok (widget_of (step_ o s))) /\
  spacer_ok (remove_spacer s) /\
  spacer_ok (add_spacer (remove_spacer s)) /\
  spacer_count (layout s) = 1%nat /\ ~ spacer_ok (add_spacer s).
Proof.
  assert (Hok : spacer_ok (run_ hello_hi fresh_widget)).
  { split; [vm_compute; lia | discriminate]. }
  destruct (spacer_kept_single strip_nothing any_conversation unload_all
              (run_ hello_hi fresh_widget) Hok)
    as (Hstep & Hremove & Hpair & Hadd).
  split; [exact Hok|]. split; [exact Hstep|]. split; [exact Hremove|].
  split; [exact Hpair|]. split; [reflexivity|].
  apply Hadd. reflexivity.
Defined.

Lemma add_message_whole_moves_spacer_last_witness :
  let s := run_ hello_hi fresh_widget in
  let r := add_message_ "User" "more" false true s in
  spacer_ok s /\
  strip_nothing (lstrip "more") (username (user s)) (botname (chatbot s)) <> "" /\
  exists w,
    r.1 = Some w /\
    layout r.2 = [ItemMessage user_hello; ItemMessage bot_hi; ItemMessage w; ItemSpacer].
Proof.
  assert (Hok : spacer_ok (run_ hello_hi fresh_widget)).
  { split; [vm_compute; lia | discriminate]. }
  split; [exact Hok|]. split; [discriminate|].
  apply (add_message_whole_moves_spacer_last strip_nothing "User" "more" false
           (run_ hello_hi fresh_widget)).
  - exact Hok.
  - discriminate.
Defined.


Lemma handle_key_press_submits_on_return_witness :
  let plain := {| shift := false; control := false; alt := false;
                  meta := false; keypad := false; group_switch := false |} in
  let enter := {| key := Key_Return; modifiers := plain |} in
  let shift_enter := {| key := Key_Return; modifiers := ShiftModifier |} in
  reachable_ typed_hello /\
  handle_key_press_ true enter typed_hello = (do_generate_ None typed_hello, false) /\
  handle_key_press_ true shift_enter typed_hello = (typed_hello, true).
Proof.
  split; [apply reachable_run_fresh|].
  split.
  - apply (handle_key_press_submits_on_return strip_nothing any_conversation
             unload_all true _ typed_hello (reachable_run_fresh _ _ _ _));
      [reflexivity | discriminate].
  - apply (handle_key_press_submits_on_return strip_nothing any_conversation
             unload_all true _ typed_hello (reachable_run_fresh _ _ _ _)).
    now right.
Defined.

Lemma enable_generate_ends_or_resumes_witness :
  let s := run_ two_prompts fresh_widget in
  reachable_ s /\
  held_message s = Some "b" /\
  held_message (enable_generate_ s) = None /\
  generating (enable_generate_ s) = true /\
  last (call_names (enable_generate_ s)) = Some SendButtonEnable.
Proof.
  split; [apply reachable_run_fresh|]. split; [reflexivity|].
  apply (enable_generate_ends_or_resumes strip_nothing any_conversation unload_all
           (run_ two_prompts fresh_widget)).
  apply reachable_run_fresh.
Defined.

Lemma do_generate_shows_typed_prompt_witness :
  let s' := do_generate_ (Some "b") typed_hello in
  "b" <> "" /\ generating typed_hello = false /\
  (exists c, sends s' = sends typed_hello ++ [c] /\
             ev c = SendRequest "b" CHAT false) /\
  (exists w, entries s' = entries typed_hello ++ [w] /\
             shown w = ("User", "hello", false)).
Proof.
  split; [discriminate|]. split; [reflexivity|].
  destruct (do_generate_shows_typed_prompt strip_nothing unload_all "b" typed_hello)
    as (Hsend & _ & Hentry).
  - discriminate.
  - reflexivity.
  - split; [exact Hsend|]. apply Hentry. discriminate.
Defined.

Lemma prompt_then_streamed_answer_witness :
  let s' := flush_ (run_ (stream hi_there) (do_generate_ None typed_hello)) in
  (generating typed_hello = false /\ held_message typed_hello = None /\
   token_buffer typed_hello = [] /\ conversation_history typed_hello = [] /\
   prompt typed_hello <> "" /\
   Forall (fun r => node_id r = None) hi_there /\
   join (map r_message hi_there) <> "") /\
  (exists wu wb,
      entries s' = entries typed_hello ++ [wu; wb] /\
      shown wu = ("User", "hello", false) /\
      shown wb = ("Bot", "Hi there", true)) /\
  (exists c, sends s' = sends typed_hello ++ [c] /\
             ev c = SendRequest "hello" CHAT false) /\
  token_buffer s' = [].
Proof.
  assert (Hall : Forall (fun r => node_id r = None) hi_there).
  { repeat constructor. }
  split.
  - repeat split; try reflexivity; try discriminate. exact Hall.
  - apply (prompt_then_streamed_answer strip_nothing any_conversation unload_all
             hi_there typed_hello);
      try reflexivity; try discriminate. exact Hall.
Defined.
